(** * Chat Analysis Dashboard: the loader and the filter/aggregate pipeline

    A shallow embedding of [chat_analyzer.py].  The script is a straight-line
    program over a pandas DataFrame: [convert_to_df] normalises the raw JSON
    records, the sidebar derives a date range, a boolean mask selects the rows
    of [filtered_df], four metrics head the page, and charts and tables
    follow.

    The development has two layers.  The computations on the rows of a
    table ([sidebar], [apply_filters], [top_row], [pipeline], the charts)
    say what the lines compute on a frame that has its columns.  The
    functions on a frame ([frame_sidebar], [frame_filters], [frame_metrics],
    [render], [dashboard]) run them in the order of the script with every
    subscript, widget and library call checked as the script checks it.

    Conventions of the embedding.
    - A column of a DataFrame is a [seq]; a missing value (None, NaN, NaT) is
      [None].  Boolean indexing [df[mask]] is [seq.mask].
    - A Python [str] is a [string] whose characters are read as code points
      0..255.
    - A timestamp is a number of nanoseconds since 1970-01-01T00:00:00Z, a
      calendar date the number of days since 1970-01-01 (the order on Python
      [date] objects is the order of these numbers).
    - A float is a binary64 float of the kernel ([PrimFloat]).
    - A statement that can raise returns a [result]. *)

From HB Require Import structures.
From mathcomp Require Import ssreflect ssrfun ssrbool eqtype ssrnat seq path.
From Stdlib Require Import ZArith Ascii String Lia.
From Stdlib Require Uint63.
From Stdlib Require Import PrimFloat FloatOps SpecFloat.

Set Implicit Arguments.
Unset Strict Implicit.
Unset Printing Implicit Defensive.

(** ** Outcomes of a statement *)

(** The exceptions the modelled statements raise; [OtherError] is for the
    regular-expression engine where it is left open, which may raise an
    exception of any class (RecursionError, say). *)
Inductive exn : Type :=
| KeyError (column : string)   (* df['column'] on a frame without that column *)
| ReError                      (* re.error: the search term is not a pattern *)
| ZeroDivisionError            (* int / int with a zero divisor *)
| ValueError                   (* pd.date_range with a NaT bound *)
| OutOfBoundsDatetime          (* a date whose midnight no Timestamp can hold *)
| TypeError                    (* sorted() on strings mixed with missing values *)
| OtherError (class : string).

(** [Unmodelled] marks an input on which the library behaviour lies outside
    this development: a timestamp that reads the wall clock, a timestamp
    column that mixes numeric offsets with times without zone, a pattern
    that uses regular-expression syntax beyond the fragment of [re_compile]
    or nests its groups deeper than [max_nesting], a widget call with a NaT
    default or with a date outside its range, an author column of missing
    values only.  No theorem concludes anything from it. *)
Inductive result (A : Type) : Type :=
| Ok (a : A)
| Raise (e : exn)
| Unmodelled.

Arguments Raise {A} e.
Arguments Unmodelled {A}.

Definition bind {A B : Type} (x : result A) (k : A -> result B) : result B :=
  match x with
  | Ok a => k a
  | Raise e => Raise e
  | Unmodelled => Unmodelled
  end.

Notation "'let*' x ':=' e 'in' k" := (bind e (fun x => k))
  (at level 200, x name, e at level 100, k at level 200).

(** ** Equality structures for the data of the frame *)

HB.instance Definition _ := hasDecEq.Build Z Z.eqb_spec.
HB.instance Definition _ := hasDecEq.Build string String.eqb_spec.
HB.instance Definition _ := hasDecEq.Build ascii Ascii.eqb_spec.

(** ** Characters *)

Definition chars (s : string) : seq ascii := list_ascii_of_string s.

Definition code (c : ascii) : nat := nat_of_ascii c.

Definition is_digit (c : ascii) : bool := (48 <= code c) && (code c <= 57).

Definition digit_val (c : ascii) : Z := Z.of_nat (code c - 48).

Definition is_ascii_letter (c : ascii) : bool :=
  ((65 <= code c) && (code c <= 90)) || ((97 <= code c) && (code c <= 122)).

(** C's [isspace]: space, \t, \n, \v, \f, \r. *)
Definition is_space (c : ascii) : bool :=
  (code c == 32) || ((9 <= code c) && (code c <= 13)).

(** Lower-casing as the regular-expression engine does it under IGNORECASE,
    on code points below 256: A-Z and the accented capitals U+00C0..U+00DE
    (U+00D7, the multiplication sign, apart) move 32 places up. *)
Definition is_upper (n : nat) : bool :=
  ((65 <= n) && (n <= 90)) || [&& 192 <= n, n <= 222 & n != 215].

Definition tolower (c : ascii) : ascii :=
  if is_upper (code c) then ascii_of_nat (code c + 32) else c.

(** ** Regular expressions: the fragment of Python's [re] that is modelled

    [Series.str.contains(pat, case=False, na=False)] is called with its
    default [regex=True]: it compiles [pat] with [re.IGNORECASE] and keeps the
    rows in which [pattern.search] finds a match. *)

Inductive regex : Type :=
| Eps                       (* the empty pattern *)
| Empty                     (* matches nothing; arises in derivatives only *)
| Lit (c : ascii)           (* a literal character, compared ignoring case *)
| Any                       (* [.]: any character but a newline *)
| Cat (r1 r2 : regex)
| Alt (r1 r2 : regex)
| Star (r : regex).

Inductive token : Type :=
| TLit | TDot | TStar | TPlus | TQuest | TBar | TOpen | TClose | TEscape
| TOther.                   (* [ { ^ $: syntax outside the fragment *)

Definition classify (c : ascii) : token :=
  match c with
  | "."%char => TDot
  | "*"%char => TStar
  | "+"%char => TPlus
  | "?"%char => TQuest
  | "|"%char => TBar
  | "("%char => TOpen
  | ")"%char => TClose
  | "\"%char => TEscape
  | "["%char | "{"%char | "^"%char | "$"%char => TOther
  | _ => TLit
  end.

(** A group being parsed: its finished branches, in order, and the items of
    the branch under way, the latest first. *)
Record group : Type := Group { branches : seq regex; items : seq regex }.

Definition cat_all (rs : seq regex) : regex := foldr Cat Eps rs.

Definition close_group (g : group) : regex :=
  foldr Alt (cat_all (rev (items g))) (branches g).

Definition push_item (r : regex) (g : group) : group :=
  Group (branches g) (r :: items g).

Definition quantify (t : token) (r : regex) : regex :=
  match t with
  | TStar => Star r
  | TPlus => Cat r (Star r)
  | _ => Alt r Eps
  end.

(** The parser and the compiler of [re] recurse on the nesting of groups,
    and Python gives up with RecursionError when the nesting exhausts the
    interpreter's stack (at about 500 groups under the default limit of
    1000 frames, sooner under a deep call stack).  Where that happens is
    not a matter of the pattern alone, so patterns with more than
    [max_nesting] groups open at once are left out of the model. *)
Definition max_nesting : nat := 100.

(** The parser of [re.compile], one character at a time.  [stack] holds the
    enclosing groups, [cur] the group under way, [quantified] says that the
    latest item already carries a quantifier.  It raises where [re] raises
    (nothing to repeat, unbalanced parenthesis, missing parenthesis, a
    trailing backslash) and is [Unmodelled] on syntax beyond the fragment:
    character sets, braces, anchors, [(?...)] extensions, escapes of letters
    and digits, a quantifier applied to a quantifier (lazy and possessive
    forms, multiple repeat), and groups nested deeper than [max_nesting]. *)
Fixpoint re_parse (stack : seq group) (cur : group) (quantified : bool)
    (p : seq ascii) {struct p} : result regex :=
  match p with
  | [::] =>
      if stack is _ :: _ then Raise ReError else Ok (close_group cur)
  | c :: p' =>
      match classify c with
      | TLit => re_parse stack (push_item (Lit c) cur) false p'
      | TDot => re_parse stack (push_item Any cur) false p'
      | TStar | TPlus | TQuest =>
          match items cur with
          | [::] => Raise ReError
          | r :: rs =>
              if quantified then Unmodelled
              else re_parse stack
                     (Group (branches cur) (quantify (classify c) r :: rs))
                     true p'
          end
      | TBar =>
          re_parse stack
            (Group (rcons (branches cur) (cat_all (rev (items cur)))) [::])
            false p'
      | TOpen =>
          if p' is "?"%char :: _ then Unmodelled
          else if max_nesting <= size stack then Unmodelled
          else re_parse (cur :: stack) (Group [::] [::]) false p'
      | TClose =>
          match stack with
          | [::] => Raise ReError
          | g :: stack' =>
              re_parse stack' (push_item (close_group cur) g) false p'
          end
      | TEscape =>
          match p' with
          | [::] => Raise ReError
          | d :: p'' =>
              if is_ascii_letter d || is_digit d then Unmodelled
              else re_parse stack (push_item (Lit d) cur) false p''
          end
      | TOther => Unmodelled
      end
  end.

Definition re_compile (pat : string) : result regex :=
  re_parse [::] (Group [::] [::]) false (chars pat).

(** Matching by derivatives. *)
Fixpoint nullable (r : regex) : bool :=
  match r with
  | Eps => true
  | Empty => false
  | Lit _ => false
  | Any => false
  | Cat r1 r2 => nullable r1 && nullable r2
  | Alt r1 r2 => nullable r1 || nullable r2
  | Star _ => true
  end.

Fixpoint deriv (d : ascii) (r : regex) : regex :=
  match r with
  | Eps => Empty
  | Empty => Empty
  | Lit c => if tolower d == tolower c then Eps else Empty
  | Any => if code d == 10 then Empty else Eps
  | Cat r1 r2 =>
      if nullable r1 then Alt (Cat (deriv d r1) r2) (deriv d r2)
      else Cat (deriv d r1) r2
  | Alt r1 r2 => Alt (deriv d r1) (deriv d r2)
  | Star r1 => Cat (deriv d r1) (Star r1)
  end.

(** Some prefix of [s] matches [r]. *)
Fixpoint match_here (r : regex) (s : seq ascii) : bool :=
  nullable r || (if s is d :: s' then match_here (deriv d r) s' else false).

(** [pattern.search(s) is not None]: a match starts somewhere in [s]. *)
Fixpoint re_search (r : regex) (s : seq ascii) : bool :=
  match_here r s || (if s is _ :: s' then re_search r s' else false).

(** What the patterns mean: [Matches r s] says that the whole of [s] is
    matched by [r]. *)
Inductive Matches : regex -> seq ascii -> Prop :=
| MEps : Matches Eps [::]
| MLit c d : tolower d = tolower c -> Matches (Lit c) [:: d]
| MAny d : code d <> 10 -> Matches Any [:: d]
| MCat r1 r2 s1 s2 :
    Matches r1 s1 -> Matches r2 s2 -> Matches (Cat r1 r2) (s1 ++ s2)
| MAltL r1 r2 s : Matches r1 s -> Matches (Alt r1 r2) s
| MAltR r1 r2 s : Matches r2 s -> Matches (Alt r1 r2) s
| MStar0 r : Matches (Star r) [::]
| MStarS r s1 s2 :
    Matches r s1 -> Matches (Star r) s2 -> Matches (Star r) (s1 ++ s2).

(** ** Calendar arithmetic *)

Definition is_leapyear (y : Z) : bool :=
  ((y mod 4 =? 0) && ~~ (y mod 100 =? 0) || (y mod 400 =? 0))%Z.

Definition days_in_month (leap : bool) (m : Z) : Z :=
  match m with
  | 2 => if leap then 29 else 28
  | 4 | 6 | 9 | 11 => 30
  | _ => 31
  end%Z.

Definition days_before_month (leap : bool) (m : Z) : Z :=
  (nth 0 [:: 0; 31; 59; 90; 120; 151; 181; 212; 243; 273; 304; 334]
       (Z.to_nat (m - 1))
   + (if leap && (2 <? m) then 1 else 0))%Z.

(** Days from 1970-01-01 to the first of January of year [y]: 365 a year and
    one more for each leap year in between. *)
Definition days_before_year (y : Z) : Z :=
  (365 * (y - 1970) + ((y - 1) / 4 - 492) - ((y - 1) / 100 - 19)
   + ((y - 1) / 400 - 4))%Z.

Definition days_from_civil (y m d : Z) : Z :=
  (days_before_year y + days_before_month (is_leapyear y) m + (d - 1))%Z.

(** The fields the ISO parser fills in. *)
Record datetimestruct : Type := Dts {
  dts_year : Z; dts_month : Z; dts_day : Z;
  dts_hour : Z; dts_min : Z; dts_sec : Z; dts_ns : Z
}.

Definition ns_per_sec : Z := 1000000000.
Definition ns_per_day : Z := 86400 * ns_per_sec.

Definition dts_to_ns (d : datetimestruct) : Z :=
  ((((days_from_civil (dts_year d) (dts_month d) (dts_day d) * 24
      + dts_hour d) * 60 + dts_min d) * 60 + dts_sec d) * ns_per_sec
   + dts_ns d)%Z.

(** [Timestamp.date()] / [Series.dt.date] on a UTC instant. *)
Definition date_of_ns (t : Z) : Z := (t / ns_per_day)%Z.

(** ** Parsing timestamps: [pd.to_datetime(col, format='ISO8601',
       errors='coerce', utc=True)]

    The grammar is that of pandas' ISO-8601 reader: a four-digit year, then
    month and day (with one of the separators - . / \ and space, or as eight
    digits), then after [T] or a space the hour, minutes, seconds (colons
    optional) and up to eighteen fractional digits, then [Z] or a numeric
    offset.  [None] is a parse error. *)

Fixpoint skip_space (s : seq ascii) : seq ascii :=
  if s is c :: s' then if is_space c then skip_space s' else s else [::].

Definition at_end (s : seq ascii) : bool := nilp (skip_space s).

(** A field of one or two digits.  The second digit is taken when present;
    one digit alone is accepted only next to a separator ([sep]). *)
Definition two_digits (sep : bool) (s : seq ascii)
  : option (Z * bool * seq ascii) :=
  match s with
  | a :: s1 =>
      if is_digit a then
        match s1 with
        | b :: s2 =>
            if is_digit b then Some (10 * digit_val a + digit_val b, true, s2)%Z
            else if sep then Some (digit_val a, false, s1) else None
        | [::] => if sep then Some (digit_val a, false, [::]) else None
        end
      else None
  | [::] => None
  end.

(** Hours and minutes of a UTC offset: two digits below [limit], or one. *)
Definition offset_field (limit : Z) (s : seq ascii) : option (Z * seq ascii) :=
  match two_digits true s with
  | Some (v, _, s') => if (v <? limit)%Z then Some (v, s') else None
  | None => None
  end.

(** The zone: nothing (a naive time, [Some None]), [Z], or [+hh[[:]mm]];
    the result is the offset in minutes. *)
Definition parse_timezone (s : seq ascii) : option (option Z) :=
  match skip_space s with
  | [::] => Some None
  | c :: s' =>
      if c == "Z"%char then (if at_end s' then Some (Some 0%Z) else None)
      else if (c == "-"%char) || (c == "+"%char) then
        let sign := if c == "-"%char then (-1)%Z else 1%Z in
        match offset_field 24 s' with
        | None => None
        | Some (h, [::]) => Some (Some (sign * (60 * h))%Z)
        | Some (h, s1) =>
            let s2 := if s1 is ":"%char :: t then t else s1 in
            match offset_field 60 s2 with
            | None => None
            | Some (m, s3) =>
                if at_end s3 then Some (Some (sign * (60 * h + m))%Z)
                else None
            end
        end
      else None
  end.

Fixpoint take_digits (n : nat) (s : seq ascii) : seq ascii * seq ascii :=
  match n, s with
  | n'.+1, c :: s' =>
      if is_digit c then
        let: (ds, rest) := take_digits n' s' in (c :: ds, rest)
      else ([::], s)
  | _, _ => ([::], s)
  end.

(** The first nine fractional digits as nanoseconds; later ones are read
    and dropped. *)
Definition frac_ns (ds : seq ascii) : Z :=
  foldl (fun acc i => 10 * acc + digit_val (nth "0"%char ds i))%Z 0%Z (iota 0 9).

Definition finish (d : datetimestruct) (tz : option Z)
  : option (datetimestruct * option Z) := Some (d, tz).

Definition with_zone (d : datetimestruct) (s : seq ascii)
  : option (datetimestruct * option Z) :=
  if parse_timezone s is Some tz then finish d tz else None.

Definition set_time (d : datetimestruct) (h m sec ns : Z) : datetimestruct :=
  Dts (dts_year d) (dts_month d) (dts_day d) h m sec ns.

(** Seconds and fraction; [s] starts at the first digit of the seconds. *)
Definition parse_seconds (d : datetimestruct) (h m : Z) (hms_sep : bool)
    (s : seq ascii) : option (datetimestruct * option Z) :=
  match two_digits hms_sep s with
  | None => None
  | Some (sec, _, s1) =>
      if (60 <=? sec)%Z then None
      else if s1 is "."%char :: s2 then
        let: (ds, s3) := take_digits 18 s2 in
        with_zone (set_time d h m sec (frac_ns ds)) s3
      else with_zone (set_time d h m sec 0) s1
  end.

(** Minutes and what follows; [s] starts at the first digit of the minutes. *)
Definition parse_minutes (d : datetimestruct) (h : Z) (hms_sep : bool)
    (s : seq ascii) : option (datetimestruct * option Z) :=
  match two_digits hms_sep s with
  | None => None
  | Some (m, _, s1) =>
      if (60 <=? m)%Z then None
      else
        match s1 with
        | [::] => finish (set_time d h m 0 0) None
        | c :: s2 =>
            if hms_sep && (c == ":"%char) then
              (if s2 is c2 :: _ then
                 if is_digit c2 then parse_seconds d h m hms_sep s2 else None
               else None)
            else if ~~ hms_sep && is_digit c then parse_seconds d h m hms_sep s1
            else with_zone (set_time d h m 0 0) s1
        end
  end.

(** The time of day; [s] starts after the [T] or space. *)
Definition parse_time (d : datetimestruct) (s : seq ascii)
  : option (datetimestruct * option Z) :=
  match two_digits true s with
  | None => None
  | Some (h, two, s1) =>
      if (24 <=? h)%Z then None
      else
        match s1 with
        | [::] => if two then finish (set_time d h 0 0 0) None else None
        | c :: s2 =>
            if c == ":"%char then
              (if s2 is c2 :: _ then
                 if is_digit c2 then parse_minutes d h true s2 else None
               else None)
            else if is_digit c then parse_minutes d h false s1
            else if two then with_zone (set_time d h 0 0 0) s1
            else None
        end
  end.

Definition ymd_separators : seq ascii :=
  [:: "-"%char; "."%char; "/"%char; "\"%char; " "%char].

(** The day of the month and what follows. *)
Definition parse_day (y m : Z) (sep : bool) (s : seq ascii)
  : option (datetimestruct * option Z) :=
  match two_digits sep s with
  | None => None
  | Some (d, _, s1) =>
      if (d <? 1)%Z || (days_in_month (is_leapyear y) m <? d)%Z then None
      else
        let date := Dts y m d 0 0 0 0 in
        match s1 with
        | [::] => finish date None
        | c :: s2 =>
            if ((c == "T"%char) || (c == " "%char)) && ~~ nilp s2
            then parse_time date s2 else None
        end
  end.

(** The month and what follows; [s] starts at its first digit. *)
Definition parse_month (y : Z) (sep : option ascii) (s : seq ascii)
  : option (datetimestruct * option Z) :=
  match two_digits (isSome sep) s with
  | None => None
  | Some (m, _, s1) =>
      if (m <? 1)%Z || (12 <? m)%Z then None
      else
        match s1, sep with
        | [::], None => None
        | [::], Some _ => finish (Dts y m 1 0 0 0 0) None
        | c :: s2, Some sp =>
            if (c == sp) && ~~ nilp s2 then parse_day y m true s2 else None
        | _ :: _, None => parse_day y m false s1
        end
  end.

Definition parse_year (s : seq ascii) : Z * seq ascii :=
  match s with
  | a :: b :: c :: d :: s' =>
      if [&& is_digit a, is_digit b, is_digit c & is_digit d]
      then (1000 * digit_val a + 100 * digit_val b + 10 * digit_val c
            + digit_val d, s')%Z
      else (0%Z, s)
  | _ => (0%Z, s)
  end.

Definition parse_iso_8601_datetime (str : seq ascii)
  : option (datetimestruct * option Z) :=
  let s0 := skip_space str in
  let s1 := if s0 is "-"%char :: t then t else s0 in
  if nilp s1 then None
  else
    let: (y0, s2) := parse_year s1 in
    let y := if str is "-"%char :: _ then (- y0)%Z else y0 in
    match s2 with
    | [::] => finish (Dts y 1 1 0 0 0 0) None
    | c :: s3 =>
        if is_digit c then parse_month y None s2
        else if c \in ymd_separators then
          (if s3 is c3 :: _ then
             if is_digit c3 then parse_month y (Some c) s3 else None
           else None)
        else None
    end.

(** The instants a nanosecond-resolution timestamp can hold. *)
Definition in_bounds (t : Z) : bool :=
  ((- 2 ^ 63 <? t) && (t <? 2 ^ 63))%Z.

(** One parsed string as a UTC instant: the offset, when there is one, is
    taken off; a time without zone counts as UTC ([utc=True]). *)
Definition iso_to_utc (s : string) : option Z :=
  match parse_iso_8601_datetime (chars s) with
  | Some (d, tz) =>
      let local := dts_to_ns d in
      let utc := (local - 60 * ns_per_sec * (if tz is Some off then off else 0))%Z in
      if in_bounds local && in_bounds utc then Some utc else None
  | None => None
  end.

(** One cell of the timestamp column.  A string that is no ISO-8601
    timestamp becomes NaT under [errors='coerce'], and so does a missing
    value; the strings [now] and [today] are read off the wall clock. *)
Definition to_datetime_cell (v : option string) : result (option Z) :=
  match v with
  | None => Ok None
  | Some s =>
      match iso_to_utc s with
      | Some t => Ok (Some t)
      | None =>
          if (s == "now"%string) || (s == "today"%string) then Unmodelled
          else Ok None
      end
  end.

(** The cells of a column, one after the other. *)
Fixpoint convert_cells (col : seq (option string)) : result (seq (option Z)) :=
  match col with
  | [::] => Ok [::]
  | v :: col' =>
      let* t := to_datetime_cell v in
      let* ts := convert_cells col' in
      Ok (t :: ts)
  end.

(** The reader keeps the offset it has read in variables that outlive the
    cell, and pandas versions differ in what a later time without zone
    makes of them (2.2 and 2.3 shift it by the offset read before).  The
    offset is stored once the reader is through the offset's digits, also
    when the string then fails for what follows them: that is, when some
    prefix of the string is a timestamp with an offset other than zero. *)
Definition prefixes (s : seq ascii) : seq (seq ascii) :=
  [seq take n s | n <- iota 0 (size s).+1].

Definition sets_offset (s : string) : bool :=
  has (fun p => if parse_iso_8601_datetime p is Some (_, Some off)
                then off != 0%Z else false)
      (prefixes (chars s)).

(** A cell that converts, and is written without zone. *)
Definition zone_less (s : string) : bool :=
  if parse_iso_8601_datetime (chars s) is Some (_, None)
  then isSome (iso_to_utc s) else false.

(** The column holds an offset and a time without zone, in whatever order. *)
Definition mixes_offsets (col : seq (option string)) : bool :=
  has (fun v => if v is Some s then sets_offset s else false) col
  && has (fun v => if v is Some s then zone_less s else false) col.

Definition to_datetime (col : seq (option string)) : result (seq (option Z)) :=
  if mixes_offsets col then Unmodelled else convert_cells col.

(** ** Records and frames *)

(** One field of a JSON message object: the key may be missing, hold null,
    or hold a string (the export format has no other values). *)
Inductive field : Type := Absent | Null | Str (s : string).

Record record : Type := Record {
  raw_timestamp : field; raw_author : field;
  raw_content : field; raw_type : field
}.

(** A row of the frame, with the timestamp column at type [T]: strings as
    loaded, instants ([option Z], [None] for NaT) once converted. *)
Record row (T : Type) : Type := Row {
  timestamp : T;
  author : option string;
  content : option string;
  type : option string
}.

Definition message : Type := row (option Z).

Definition row_to_tuple T (r : row T) := (timestamp r, author r, content r, type r).
Definition tuple_to_row T (p : T * option string * option string * option string)
  : row T := let: (t, a, c, y) := p in Row t a c y.

Lemma row_tupleK T : cancel (@row_to_tuple T) (@tuple_to_row T).
Proof. by case. Qed.

HB.instance Definition _ (T : eqType) :=
  Equality.copy (row T) (can_type (@row_tupleK T)).

(** A frame: the labels of its columns and its rows.  A row has a value for
    each of the four keys of a message; under a label the frame does not
    have, these values are never read, as every subscript [df[label]]
    checks the label first. *)
Record frame (T : Type) : Type := Frame {
  columns : seq string;
  rows : seq (row T)
}.

Definition cell (f : field) : option string :=
  if f is Str s then Some s else None.

Definition present (f : field) : bool :=
  if f is Absent then false else true.

(** The label of a key, when some record has the key. *)
Definition label_of (key : record -> field) (label : string)
    (data : seq record) : seq string :=
  if has (fun r => present (key r)) data then [:: label] else [::].

(** [pd.DataFrame(data)]: one row per record; a column exists when some
    record has its key; a record without the key has a missing value.
    (The labels are listed in the order of the keys in an exported message;
    only membership is ever asked of them.) *)
Definition DataFrame (data : seq record) : frame (option string) :=
  Frame
    (label_of raw_timestamp "timestamp" data ++ label_of raw_author "author" data
     ++ label_of raw_content "content" data ++ label_of raw_type "type" data)
    [seq Row (cell (raw_timestamp r)) (cell (raw_author r))
             (cell (raw_content r)) (cell (raw_type r)) | r <- data].

(** [df[label]]: KeyError when the frame has no such column. *)
Definition getitem T (df : frame T) (label : string) : result unit :=
  if label \in columns df then Ok tt else Raise (KeyError label).

(** The frame has a column for each of the labels. *)
Definition has_columns T (labels : seq string) (df : frame T) : bool :=
  all (fun label => label \in columns df) labels.

(** [df['timestamp'] = ts]. *)
Definition set_timestamp T U (df : frame T) (ts : seq U) : frame U :=
  Frame (columns df)
    [seq Row p.2 (author p.1) (content p.1) (type p.1) | p <- zip (rows df) ts].

(** [df.dropna(subset=['timestamp'])]. *)
Definition dropna (df : frame (option Z)) : frame (option Z) :=
  Frame (columns df) [seq r <- rows df | isSome (timestamp r)].

(** [df['type'] = df['type'].fillna(v)]. *)
Definition fillna_type T (df : frame T) (v : string) : frame T :=
  Frame (columns df)
    [seq Row (timestamp r) (author r) (content r)
             (Some (if type r is Some y then y else v)) | r <- rows df].

(** ** [convert_to_df] *)

(** The body of the [try]. *)
Definition try_convert (df : frame (option string)) : result (frame (option Z)) :=
  let* _ := getitem df "timestamp" in
  let* ts := to_datetime [seq timestamp r | r <- rows df] in
  Ok (dropna (set_timestamp df ts)).

(** The [except] handler: it writes [df['timestamp'].head()] to the page and
    returns None. *)
Definition report_and_fail (df : frame (option string))
  : result (option (frame (option Z))) :=
  let* _ := getitem df "timestamp" in
  Ok None.

Definition convert_to_df (data : seq record)
  : result (option (frame (option Z))) :=
  let df := DataFrame data in
  match try_convert df with
  | Raise _ => report_and_fail df
  | Unmodelled => Unmodelled
  | Ok df1 =>
      let* _ := getitem df1 "type" in
      Ok (Some (fillna_type df1 "Default"))
  end.

(** ** The sidebar: date range and filter values *)

Inductive preset : Type :=
| Custom | Last7days | Last30days | Last90days | AllTime.

(** What the user has entered: the preset, the two dates of the custom
    pickers, the type, the author and the search text. *)
Record widgets : Type := Widgets {
  w_preset : preset;
  w_start : Z; w_end : Z;
  w_type : string; w_author : string; w_search : string
}.

Record FilterSpec : Type := Spec {
  start_date : Z; end_date : Z;
  selected_type : string; selected_author : string; search_term : string
}.

Definition zmin (a b : Z) : Z := if (a <=? b)%Z then a else b.
Definition zmax (a b : Z) : Z := if (a <=? b)%Z then b else a.

(** [Series.min()] and [Series.max()] skip missing values and are NaT on a
    column without values. *)
Definition series_fold (f : Z -> Z -> Z) (col : seq (option Z)) : option Z :=
  if pmap id col is x :: xs then Some (foldl f x xs) else None.

Definition series_min : seq (option Z) -> option Z := series_fold zmin.
Definition series_max : seq (option Z) -> option Z := series_fold zmax.

(** [.date()]: the calendar date of an instant; NaT stays NaT. *)
Definition date (t : option Z) : option Z := omap date_of_ns t.

(** Lines 53 and 54: [min_date] and [max_date]. *)
Definition min_max_dates (df : seq message)
  : result (option Z * option Z) :=
  Ok (date (series_min [seq timestamp m | m <- df]),
      date (series_max [seq timestamp m | m <- df])).

(** [d - pd.Timedelta(days=n)]. *)
Definition minus_days (d : option Z) (n : Z) : option Z :=
  omap (fun x => x - n)%Z d.


(** A bound of [pd.date_range]: neither may be NaT. *)
Definition bound (d : option Z) : result Z :=
  if d is Some x then Ok x else Raise ValueError.

(** [pd.date_range(start, end)]: the days from [start] to [end], none when
    the range is inverted. *)
Definition days_between (s e : Z) : seq Z :=
  [seq (s + Z.of_nat i)%Z | i <- iota 0 (Z.to_nat (e - s + 1))].

(** Line 85: [['All'] + sorted(df['author'].unique().tolist())].  Sorting
    compares the values: strings among themselves by code points, a string
    with a missing value not at all. *)
Definition author_options (df : seq message) : result (seq string) :=
  let u := undup [seq author m | m <- df] in
  if all isSome u then Ok ("All"%string :: sort String.leb (pmap id u))
  else if has isSome u then Raise TypeError
  else Unmodelled.


(** ** Applying the filters (lines 92 to 99) *)

(** [a & b] on two boolean columns of one frame. *)
Definition and_series (a b : seq bool) : seq bool :=
  [seq p.1 && p.2 | p <- zip a b].

(** [df['timestamp'].dt.date]. *)
Definition dt_date (df : seq message) : seq (option Z) :=
  [seq date (timestamp m) | m <- df].

(** [col >= d] and [col <= d]; a comparison with NaT is False. *)
Definition ge_series (col : seq (option Z)) (d : Z) : seq bool :=
  [seq if x is Some v then (d <=? v)%Z else false | x <- col].

Definition le_series (col : seq (option Z)) (d : Z) : seq bool :=
  [seq if x is Some v then (v <=? d)%Z else false | x <- col].

(** [col == v]; a missing value equals nothing. *)
Definition eq_series (col : seq (option string)) (v : string) : seq bool :=
  [seq x == Some v | x <- col].

(** [col.str.contains(pat, case=False, na=False)]. *)
Definition str_contains (col : seq (option string)) (pat : string)
  : result (seq bool) :=
  let* r := re_compile pat in
  Ok [seq if x is Some s then re_search r (chars s) else false | x <- col].

Definition build_mask (df : seq message) (sp : FilterSpec) : result (seq bool) :=
  let mask0 :=
    and_series (ge_series (dt_date df) (start_date sp))
               (le_series (dt_date df) (end_date sp)) in
  let mask1 :=
    if selected_type sp != "All"%string
    then and_series mask0 (eq_series [seq type m | m <- df] (selected_type sp))
    else mask0 in
  let mask2 :=
    if selected_author sp != "All"%string
    then and_series mask1 (eq_series [seq author m | m <- df] (selected_author sp))
    else mask1 in
  if search_term sp != ""%string
  then let* c := str_contains [seq content m | m <- df] (search_term sp) in
       Ok (and_series mask2 c)
  else Ok mask2.

(** [filtered_df = df[mask]], on the rows. *)
Definition apply_filters (df : seq message) (sp : FilterSpec)
  : result (seq message) :=
  let* m := build_mask df sp in
  Ok (mask m df).

(** ** The top row of metrics (lines 107 to 118) *)

Definition float_of_Z (z : Z) : float := of_uint63 (Uint63.of_Z z).
Definition float_of_nat (n : nat) : float := float_of_Z (Z.of_nat n).

(** [col.str.len()]: the number of characters, missing where the value is. *)
Definition str_len (col : seq (option string)) : seq (option nat) :=
  [seq omap String.length x | x <- col].

(** [Series.mean()]: the sum of the values present over their number, in
    floating point; NaN when there is none.  (Sums stay below 2^53, where
    the conversion of an integer is exact.) *)
Definition mean (col : seq (option nat)) : float :=
  let vals := pmap id col in
  (float_of_nat (sumn vals) / float_of_nat (size vals))%float.

Definition two52 : float := 4503599627370496%float.

(** Rounding to the nearest integer, ties to even. *)
Definition rint (x : float) : float :=
  if (abs x <? two52)%float then
    if (0 <=? x)%float then (x + two52 - two52)%float
    else (x - two52 + two52)%float
  else x.

(** [round(x, 1)] on a NumPy float, as the mean is: scale, round, unscale. *)
Definition np_round1 (x : float) : float := (rint (x * 10) / 10)%float.

(** [round(x, 1)] on a Python float: the decimal with one fractional digit
    nearest to the exact value of [x], ties to even, then the float nearest
    to that decimal.  (Exact while ten times [x] is below 2^53.) *)
Definition py_round1 (x : float) : float :=
  match Prim2SF x with
  | S754_finite s m e =>
      if (0 <=? e)%Z then x
      else
        let n := (10 * Z.pos m)%Z in
        let d := (2 ^ (- e))%Z in
        let q := (n / d)%Z in
        let r := (n mod d)%Z in
        let k := if (2 * r <? d)%Z then q
                 else if (d <? 2 * r)%Z then (q + 1)%Z
                 else if Z.even q then q else (q + 1)%Z in
        let v := (float_of_Z k / 10)%float in
        if s then (- v)%float else v
  | _ => x
  end.

(** [len(filtered_df[filtered_df['type'] == 'Reply'])]. *)
Definition replies (f : seq message) : nat :=
  size (mask (eq_series [seq type m | m <- f] "Reply") f).

(** [round(filtered_df['content'].str.len().mean(), 1)]. *)
Definition avg_length (f : seq message) : float :=
  np_round1 (mean (str_len [seq content m | m <- f])).

(** [round(len(filtered_df) / len(filtered_df['timestamp'].dt.date.unique()), 1)]:
    a division of two Python integers. *)
Definition messages_per_day (f : seq message) : result float :=
  let days := undup (dt_date f) in
  if size days == 0 then Raise ZeroDivisionError
  else Ok (py_round1 (float_of_nat (size f) / float_of_nat (size days))%float).

Record stats : Type := Stats {
  total_messages : nat;
  reply_count : nat;
  avg_message_length : float;
  messages_day : float
}.

(** The four metrics in the order the script computes them, on the rows. *)
Definition top_row (f : seq message) : result stats :=
  let total := size f in
  let reps := replies f in
  let avg := avg_length f in
  let* mpd := messages_per_day f in
  Ok (Stats total reps avg mpd).

(** ** The run on a table that has all its columns *)

(** The variables of a run: the table, the filtered table and the metrics
    shown. *)
Record session : Type := Session {
  s_df : seq message;
  s_filtered_df : seq message;
  s_stats : option stats
}.

Definition filter_step (sp : FilterSpec) (s : session) : result session :=
  let* f := apply_filters (s_df s) sp in
  Ok (Session (s_df s) f (s_stats s)).

(** The filtered rows and their metrics. *)
Definition pipeline (df : seq message) (sp : FilterSpec)
  : result (seq message * stats) :=
  let* f := apply_filters df sp in
  let* st := top_row f in
  Ok (f, st).

(** What a run shows: stopped after the failure notice, or the page. *)
Inductive page : Type :=
| Stopped
| Rendered (filtered_df : seq message) (st : stats).

(** ** The row predicate of the filter *)

(** [start_date <= date(timestamp) <= end_date], both ends included. *)
Definition in_range (sp : FilterSpec) (m : message) : bool :=
  if date (timestamp m) is Some d
  then ((start_date sp <=? d) && (d <=? end_date sp))%Z else false.

Definition type_ok (sp : FilterSpec) (m : message) : bool :=
  (selected_type sp == "All"%string) || (type m == Some (selected_type sp)).

Definition author_ok (sp : FilterSpec) (m : message) : bool :=
  (selected_author sp == "All"%string) || (author m == Some (selected_author sp)).

(** The content has a match of the compiled pattern. *)
Definition content_matches (r : regex) (m : message) : bool :=
  if content m is Some s then re_search r (chars s) else false.

(** The search as the script sets it up: no pattern for an empty search
    term, else the compiled term. *)
Definition search_pattern (sp : FilterSpec) : result (option regex) :=
  if search_term sp != ""%string
  then let* r := re_compile (search_term sp) in Ok (Some r)
  else Ok None.

Definition selects (sp : FilterSpec) (o : option regex) (m : message) : bool :=
  [&& in_range sp m, type_ok sp m, author_ok sp m
    & if o is Some r then content_matches r m else true].

(** ** The script on the frame, with every subscript looked up *)

(** The midnight of the date [d] is an instant a nanosecond timestamp can
    hold: the date 1677-09-21, on which the earliest timestamp falls, has
    none. *)
Definition day_in_bounds (d : Z) : bool := in_bounds (d * ns_per_day).

(** [pd.date_range] makes a Timestamp of each bound, the midnight of the
    date. *)
Definition range_bound (d : option Z) : result (option Z) :=
  match d with
  | Some x => if day_in_bounds x then Ok d else Raise OutOfBoundsDatetime
  | None => Ok None
  end.

(** [st.date_input(label, default, min_value=lo, max_value=hi)]: the widget
    offers the dates from [lo] to [hi] and returns the one picked. *)
Definition date_input_within (default lo hi : option Z) (picked : Z)
  : result (option Z) :=
  match default, lo, hi with
  | Some _, Some l, Some h =>
      if ((l <=? picked) && (picked <=? h))%Z then Ok (Some picked)
      else Unmodelled
  | _, _, _ => Unmodelled
  end.

Definition message_types : seq string :=
  [:: "All"; "Default"; "Reply"]%string.

(** [st.selectbox(label, options)] returns one of its options. *)
Definition selectbox (options : seq string) (picked : string) : result string :=
  if picked \in options then Ok picked else Unmodelled.

(** Lines 53 to 89. *)
Definition frame_sidebar (df : frame (option Z)) (w : widgets)
  : result (FilterSpec * nat) :=
  let* _ := getitem df "timestamp" in
  let* mm := min_max_dates (rows df) in
  let: (min_date, max_date) := mm in
  let* se := match w_preset w with
        | Last7days => Ok (minus_days max_date 7, max_date)
        | Last30days => Ok (minus_days max_date 30, max_date)
        | Last90days => Ok (minus_days max_date 90, max_date)
        | AllTime => Ok (min_date, max_date)
        | Custom =>
            let* s := date_input_within min_date min_date max_date (w_start w) in
            let* e := date_input_within max_date min_date max_date (w_end w) in
            Ok (s, e)
        end in
  let* ts := range_bound se.1 in
  let* te := range_bound se.2 in
  let* s := bound ts in
  let* e := bound te in
  let date_range := days_between s e in
  let* selected_type := selectbox message_types (w_type w) in
  let* _ := getitem df "author" in
  let* authors := author_options (rows df) in
  let* selected_author := selectbox authors (w_author w) in
  Ok (Spec s e selected_type selected_author (w_search w), size date_range).

(** Lines 107 to 118: the second metric subscripts [type], the third
    [content], the fourth [timestamp]. *)
Definition frame_metrics (filtered_df : frame (option Z)) : result stats :=
  let* _ := getitem filtered_df "type" in
  let* _ := getitem filtered_df "content" in
  let* _ := getitem filtered_df "timestamp" in
  top_row (rows filtered_df).

(** Lines 92 to 118 with Python's [re] left open: [compile pat] stands for
    [re.compile(pat, flags=re.IGNORECASE)] and [search r s] for
    [r.search(s) is not None].  What the lines do with a pattern does not
    depend on what patterns mean; [re_compile] and [re_search] are the
    instance that is modelled. *)
Section SearchEngine.

Variable pattern : Type.
Variable compile : string -> result pattern.
Variable search : pattern -> seq ascii -> bool.

Definition str_contains_by (col : seq (option string)) (pat : string)
  : result (seq bool) :=
  let* r := compile pat in
  Ok [seq if x is Some s then search r (chars s) else false | x <- col].

Definition build_mask_by (df : seq message) (sp : FilterSpec)
  : result (seq bool) :=
  let mask0 :=
    and_series (ge_series (dt_date df) (start_date sp))
               (le_series (dt_date df) (end_date sp)) in
  let mask1 :=
    if selected_type sp != "All"%string
    then and_series mask0 (eq_series [seq type m | m <- df] (selected_type sp))
    else mask0 in
  let mask2 :=
    if selected_author sp != "All"%string
    then and_series mask1 (eq_series [seq author m | m <- df] (selected_author sp))
    else mask1 in
  if search_term sp != ""%string
  then let* c := str_contains_by [seq content m | m <- df] (search_term sp) in
       Ok (and_series mask2 c)
  else Ok mask2.

Definition apply_filters_by (df : seq message) (sp : FilterSpec)
  : result (seq message) :=
  let* m := build_mask_by df sp in
  Ok (mask m df).

(** Each test subscripts its column before it is computed; [filtered_df]
    has the columns of [df]. *)
Definition frame_filters_by (df : frame (option Z)) (sp : FilterSpec)
  : result (frame (option Z)) :=
  let* _ := getitem df "timestamp" in
  let* _ := if selected_type sp != "All"%string
            then getitem df "type" else Ok tt in
  let* _ := if selected_author sp != "All"%string
            then getitem df "author" else Ok tt in
  let* _ := if search_term sp != ""%string
            then getitem df "content" else Ok tt in
  let* f := apply_filters_by (rows df) sp in
  Ok (Frame (columns df) f).

(** The filtered frame and its metrics. *)
Definition frame_pipeline_by (df : frame (option Z)) (sp : FilterSpec)
  : result (frame (option Z) * stats) :=
  let* filtered_df := frame_filters_by df sp in
  let* st := frame_metrics filtered_df in
  Ok (filtered_df, st).

(** The search as these lines set it up, and the row predicate of the
    mask. *)
Definition search_pattern_by (sp : FilterSpec) : result (option pattern) :=
  if search_term sp != ""%string
  then let* r := compile (search_term sp) in Ok (Some r)
  else Ok None.

Definition selects_by (sp : FilterSpec) (o : option pattern) (m : message)
  : bool :=
  [&& in_range sp m, type_ok sp m, author_ok sp m
    & if o is Some r
      then (if content m is Some s then search r (chars s) else false)
      else true].

End SearchEngine.

(** Lines 92 to 99 and 92 to 118 on a frame. *)
Definition frame_filters : frame (option Z) -> FilterSpec
                           -> result (frame (option Z)) :=
  frame_filters_by re_compile re_search.

Definition frame_pipeline : frame (option Z) -> FilterSpec
                            -> result (frame (option Z) * stats) :=
  frame_pipeline_by re_compile re_search.

(** The columns the filter subscripts, in the order of lines 92 to 98. *)
Definition needed_columns (sp : FilterSpec) : seq string :=
  "timestamp"%string
  :: (if selected_type sp != "All"%string then [:: "type"%string] else [::])
  ++ (if selected_author sp != "All"%string then [:: "author"%string] else [::])
  ++ (if search_term sp != ""%string then [:: "content"%string] else [::]).

(** The range the sidebar arrives at, from the earliest and the latest
    date of the table. *)
Definition chosen_range (lo hi : Z) (w : widgets) : option (Z * Z) :=
  match w_preset w with
  | Last7days => Some (hi - 7, hi)
  | Last30days => Some (hi - 30, hi)
  | Last90days => Some (hi - 90, hi)
  | AllTime => Some (lo, hi)
  | Custom =>
      if [&& lo <=? w_start w, w_start w <=? hi, lo <=? w_end w & w_end w <=? hi]
      then Some (w_start w, w_end w) else None
  end%Z.

(** From the sidebar to the metrics. *)
Definition render (df : frame (option Z)) (w : widgets) : result page :=
  let* sw := frame_sidebar df w in
  let* fs := frame_pipeline df sw.1 in
  Ok (Rendered (rows fs.1) fs.2).

(** The script: load, stop when [convert_to_df] returned None, else build
    the sidebar, filter, and show the metrics. *)
Definition dashboard (data : seq record) (w : widgets) : result page :=
  let* df := convert_to_df data in
  match df with
  | None => Ok Stopped
  | Some df => render df w
  end.

(** ** The filter in the words of the specification *)

(** [s] starts with [p], case ignored. *)
Fixpoint prefix_ci (p s : seq ascii) : bool :=
  match p, s with
  | [::], _ => true
  | c :: p', d :: s' => (tolower d == tolower c) && prefix_ci p' s'
  | _ :: _, [::] => false
  end.

(** [s] contains [p] as a substring, case ignored. *)
Fixpoint infix_ci (p s : seq ascii) : bool :=
  prefix_ci p s || (if s is _ :: s' then infix_ci p s' else false).

Definition contains_ci (needle hay : string) : bool :=
  infix_ci (chars needle) (chars hay).

(** The search test as the specification words it: the content contains the
    search string, case ignored; a missing content never does. *)
Definition spec_search (sp : FilterSpec) (m : message) : bool :=
  (search_term sp == ""%string)
  || (if content m is Some c then contains_ci (search_term sp) c else false).

Definition spec_selects (sp : FilterSpec) (m : message) : bool :=
  [&& in_range sp m, type_ok sp m, author_ok sp m & spec_search sp m].

(** The characters with a meaning of their own in a pattern. *)
Definition metachars : seq ascii := chars ".^$*+?{}[]\|()".

Definition is_plain (pat : string) : bool :=
  all (fun c => c \notin metachars) (chars pat).

(** The search test of the script: no test for an empty search term, else a
    match of the term read as a pattern. *)
Definition search_ok (sp : FilterSpec) (m : message) : bool :=
  (search_term sp == ""%string)
  || (if re_compile (search_term sp) is Ok r then content_matches r m else false).

(** The filter with some of its three optional tests left out of the
    program altogether. *)
Definition mask_omitting (no_type no_author no_search : bool)
    (df : seq message) (sp : FilterSpec) : result (seq bool) :=
  let mask0 :=
    and_series (ge_series (dt_date df) (start_date sp))
               (le_series (dt_date df) (end_date sp)) in
  let mask1 :=
    if ~~ no_type && (selected_type sp != "All"%string)
    then and_series mask0 (eq_series [seq type m | m <- df] (selected_type sp))
    else mask0 in
  let mask2 :=
    if ~~ no_author && (selected_author sp != "All"%string)
    then and_series mask1 (eq_series [seq author m | m <- df] (selected_author sp))
    else mask1 in
  if ~~ no_search && (search_term sp != ""%string)
  then let* c := str_contains [seq content m | m <- df] (search_term sp) in
       Ok (and_series mask2 c)
  else Ok mask2.

Definition filter_omitting (no_type no_author no_search : bool)
    (df : seq message) (sp : FilterSpec) : result (seq message) :=
  let* m := mask_omitting no_type no_author no_search df sp in
  Ok (mask m df).

(** ** Normalisation in the words of the specification *)

(** One record: dropped when its timestamp is missing or does not parse,
    else kept with the UTC instant and with [Default] for a missing type. *)
Definition normalise (r : record) : option message :=
  if cell (raw_timestamp r) is Some s then
    if iso_to_utc s is Some t then
      Some (Row (Some t) (cell (raw_author r)) (cell (raw_content r))
                (Some (if cell (raw_type r) is Some y then y else "Default"%string)))
    else None
  else None.

(** The instant the timestamp of a record parses to, if any. *)
Definition parsed (r : record) : option Z :=
  if cell (raw_timestamp r) is Some s then iso_to_utc s else None.

(** The timestamp of a record reads the wall clock. *)
Definition reads_clock (r : record) : bool :=
  if cell (raw_timestamp r) is Some s then
    ~~ isSome (iso_to_utc s) && ((s == "now"%string) || (s == "today"%string))
  else false.

(** The timestamps of an export mix numeric offsets with times without
    zone. *)
Definition mixed_zones (data : seq record) : bool :=
  mixes_offsets [seq cell (raw_timestamp r) | r <- data].

(** The timestamp of a record is no timestamp: missing, null, or a string
    that does not parse. *)
Definition unparsable (r : record) : bool :=
  ~~ reads_clock r && ~~ isSome (normalise r).

(** The timestamp is there, and the midnight of its date is an instant a
    timestamp can hold: it is not on 1677-09-21. *)
Definition has_midnight (t : option Z) : bool :=
  if t is Some x then day_in_bounds (date_of_ns x) else false.

(** The midnight [n] days before the date of the timestamp is such an
    instant. *)
Definition reaches_back (n : Z) (t : option Z) : bool :=
  if t is Some x then day_in_bounds (date_of_ns x - n) else false.

Definition normalized (t : seq message) : bool :=
  all (fun m => isSome (timestamp m) && isSome (type m)) t.

(** ** Example data *)

Definition msg1 : record :=
  Record (Str "2024-01-01T10:00:00Z") (Str "A") (Str "hi") (Str "Default").
Definition msg2 : record :=
  Record (Str "2024-01-02T10:00:00Z") (Str "B") (Str "hello there") (Str "Reply").
Definition two_records : seq record := [:: msg1; msg2].

Definition row1 : message :=
  Row (Some 1704103200000000000%Z) (Some "A"%string) (Some "hi"%string)
      (Some "Default"%string).
Definition row2 : message :=
  Row (Some 1704189600000000000%Z) (Some "B"%string)
      (Some "hello there"%string) (Some "Reply"%string).
Definition two_rows : seq message := [:: row1; row2].

(** 2024-01-01 and 2024-01-02 as day numbers. *)
Definition jan1 : Z := days_from_civil 2024 1 1.
Definition jan2 : Z := days_from_civil 2024 1 2.

Definition not_a_date : record :=
  Record (Str "not-a-date") (Str "A") (Str "hi") (Str "Default").

Definition untyped : record :=
  Record (Str "2024-01-01T10:00:00Z") (Str "A") (Str "hi") Absent.

Definition hello_spec : FilterSpec :=
  Spec jan1 jan2 "All"%string "All"%string "HELLO"%string.

Definition no_match_spec : FilterSpec :=
  Spec jan1 jan2 "All"%string "All"%string "zzz"%string.

Definition dot_spec : FilterSpec :=
  Spec jan1 jan2 "All"%string "All"%string "."%string.

Definition inverted_spec : FilterSpec :=
  Spec jan2 jan1 "Reply"%string "B"%string "hello"%string.

Definition inverted_bad_spec : FilterSpec :=
  Spec jan2 jan1 "All"%string "All"%string "("%string.

Definition reply_spec : FilterSpec :=
  Spec jan1 jan2 "Reply"%string "All"%string ""%string.

Definition all_time : widgets :=
  Widgets AllTime 0 0 "All"%string "All"%string ""%string.

Definition fresh_session : session := Session two_rows [::] None.

(** An unparsable timestamp and no type. *)
Definition not_a_date_untyped : record :=
  Record (Str "not-a-date") (Str "A") (Str "hi") Absent.

Definition all_columns : seq string :=
  [:: "timestamp"; "author"; "content"; "type"]%string.

Definition empty_frame : frame (option Z) := Frame all_columns [::].

(** ** The charts and the table (lines 120 to 208) *)

(** [Series.dt.hour]: the hour of the day of a UTC instant. *)
Definition hour_of_ns (t : Z) : Z :=
  ((t mod ns_per_day) / (3600 * ns_per_sec))%Z.

(** [col.value_counts().sort_index()] on an integer column: one entry for
    each value present, in increasing order, with the number of its
    occurrences; missing values are not counted. *)
Definition counts_by_index (col : seq (option Z)) : seq (Z * nat) :=
  let vals := pmap id col in
  [seq (v, count_mem v vals) | v <- sort Z.leb (undup vals)].

(** Line 192: [filtered_df['timestamp'].dt.hour.value_counts().sort_index()]. *)
Definition hourly_activity (f : seq message) : seq (Z * nat) :=
  counts_by_index [seq omap hour_of_ns (timestamp m) | m <- f].

(** The (date, type) pairs of the rows that have both. *)
Definition dated_types (f : seq message) : seq (Z * string) :=
  pmap (fun m => if date (timestamp m) is Some d
                 then if type m is Some t then Some (d, t) else None
                 else None) f.

(** Line 122: the timeline.  Grouping by date and counting the types gives a
    count for each (date, type) pair present; [unstack] lays them out with
    one row for each date and one column for each type, both in increasing
    order, and [fillna(0)] puts 0 where a pair is absent.  (The counts are
    shown as floats.) *)
Definition timeline_data (f : seq message) : seq (Z * seq (string * nat)) :=
  let cells := dated_types f in
  let dates := sort Z.leb (undup [seq c.1 | c <- cells]) in
  let types := sort String.leb (undup [seq c.2 | c <- cells]) in
  [seq (d, [seq (t, count_mem (d, t) cells) | t <- types]) | d <- dates].

(** [Series.value_counts()]: one entry for each value present, with the
    number of its occurrences, the larger counts first.  The order among
    equal counts is not fixed by pandas, so the result is described by the
    test [is_value_counts] rather than computed. *)
Definition by_count (T : Type) (p q : T * nat) : bool := q.2 <= p.2.

Definition is_value_counts (T : eqType) (col : seq (option T))
    (vc : seq (T * nat)) : bool :=
  [&& perm_eq [seq p.1 | p <- vc] (undup (pmap id col)),
      all (fun p => p.2 == count_mem p.1 (pmap id col)) vc
    & sorted (@by_count T) vc].

(** One result that passes the test: equal counts in the order of [undup]. *)
Definition value_counts_by_sort (T : eqType) (col : seq (option T))
  : seq (T * nat) :=
  let vals := pmap id col in
  sort (@by_count T) [seq (x, count_mem x vals) | x <- undup vals].

(** [Series.head(n)]. *)
Definition head (T : Type) (n : nat) (s : seq T) : seq T := take n s.

(** [Series.dt.day_name()]: 1970-01-01 was a Thursday. *)
Definition day_names : seq string :=
  [:: "Monday"; "Tuesday"; "Wednesday"; "Thursday"; "Friday"; "Saturday";
      "Sunday"]%string.

Definition day_name (t : Z) : string :=
  nth ""%string day_names (Z.to_nat ((date_of_ns t + 3) mod 7)).

(** Line 208: [sort_values('timestamp', ascending=False)], the latest
    message first and rows without timestamp last.  The order among rows
    with one timestamp is not fixed by pandas; [is_display_df f d] tests
    that [d] is an admissible result for [f]. *)
Definition later_first (a b : option Z) : bool :=
  match a, b with
  | Some x, Some y => (y <=? x)%Z
  | _, None => true
  | None, Some _ => false
  end.

Definition is_display_df (f d : seq message) : bool :=
  perm_eq d f && sorted (relpre (@timestamp (option Z)) later_first) d.

(** Line 131: [groupby('type')['content'].apply(lambda x: x.str.len().mean())],
    one mean for each type present, the types in increasing order. *)
Definition type_lengths (f : seq message) : seq (string * float) :=
  [seq (t, mean (str_len [seq content m | m <- f & type m == Some t]))
  | t <- sort String.leb (undup (pmap id [seq type m | m <- f]))].

(** The days a preset range reaches back from the latest date. *)
Definition preset_days (p : preset) : Z :=
  match p with
  | Last7days => 7 | Last30days => 30 | Last90days => 90 | _ => 0
  end%Z.

(** Line 153: the share of the filtered messages in percent, rounded to a
    tenth as NumPy rounds an array. *)
Definition percentage (total n : nat) : float :=
  np_round1 (float_of_nat n / float_of_nat total * 100)%float.

(** Lines 150 to 154: the table under the chart of the most active authors. *)
Definition author_stats (total : nat) (author_counts : seq (string * nat))
  : seq (string * nat * float) :=
  [seq (p.1, p.2, percentage total p.2) | p <- author_counts].

(** The mean content length of one author. *)
Definition author_mean (f : seq message) (a : string) : float :=
  mean (str_len [seq content m | m <- f & author m == Some a]).

(** [sort_values(ascending=False)] on floats: the larger first, NaN last. *)
Definition nan_last_desc (x y : float) : bool :=
  if is_nan y then true else if is_nan x then false else (y <=? x)%float.

(** Lines 168 to 170 before [head(10)]: one mean for each author present,
    the larger means first.  The order among equal means is not fixed by
    pandas, so the result is described rather than computed. *)
Definition is_author_lengths (f : seq message) (al : seq (string * float))
  : Prop :=
  [/\ perm_eq [seq p.1 | p <- al] (undup (pmap id [seq author m | m <- f])),
      [seq p.2 | p <- al] = [seq author_mean f p.1 | p <- al]
    & sorted nan_last_desc [seq p.2 | p <- al]].

(** Lines 174 to 177: the same means rounded to a tenth. *)
Definition length_stats (author_lengths : seq (string * float))
  : seq (string * float) :=
  [seq (p.1, np_round1 p.2) | p <- author_lengths].

(** ** The FilteredResult: the filtered frame and everything shown of it *)

Record FilteredResult : Type := Result {
  r_filtered_df : frame (option Z);
  r_metrics : stats;
  r_timeline_data : seq (Z * seq (string * nat));
  r_type_lengths : seq (string * float);
  r_type_counts : seq (string * nat);
  r_author_counts : seq (string * nat);
  r_author_stats : seq (string * nat * float);
  r_author_lengths : seq (string * float);
  r_length_stats : seq (string * float);
  r_hourly_activity : seq (Z * nat);
  r_daily_activity : seq (string * nat);
  r_display_df : seq message
}.

(** Lines 120 to 154, computed from the rows [f] of [filtered_df]. *)
Definition distribution_charts (f : seq message) (R : FilteredResult) : Prop :=
  [/\ r_timeline_data R = timeline_data f,
      r_type_lengths R = type_lengths f,
      is_value_counts [seq type m | m <- f] (r_type_counts R),
      exists2 vc, is_value_counts [seq author m | m <- f] vc
                & r_author_counts R = head 10 vc
    & r_author_stats R = author_stats (size f) (r_author_counts R)].

(** Lines 165 to 208, computed from the rows [f] of [filtered_df]. *)
Definition activity_charts (f : seq message) (R : FilteredResult) : Prop :=
  [/\ exists2 al, is_author_lengths f al & r_author_lengths R = head 10 al,
      r_length_stats R = length_stats (r_author_lengths R),
      r_hourly_activity R = hourly_activity f,
      is_value_counts [seq omap day_name (timestamp m) | m <- f]
        (r_daily_activity R)
    & is_display_df f (r_display_df R)].

(** [R] is a result the script can show for the frame [df] and the
    FilterSpec [sp]: lines 92 to 208, with the regular-expression engine
    left open, and with the one that is modelled. *)
Definition is_result_by (pattern : Type) (compile : string -> result pattern)
    (search : pattern -> seq ascii -> bool)
    (df : frame (option Z)) (sp : FilterSpec) (R : FilteredResult) : Prop :=
  [/\ frame_filters_by compile search df sp = Ok (r_filtered_df R),
      frame_metrics (r_filtered_df R) = Ok (r_metrics R),
      distribution_charts (rows (r_filtered_df R)) R
    & activity_charts (rows (r_filtered_df R)) R].

Definition is_result : frame (option Z) -> FilterSpec -> FilteredResult -> Prop :=
  is_result_by re_compile re_search.

(** ** More example data *)

(** The page of the two example rows under the type Reply. *)
Definition reply_result : FilteredResult :=
  Result (Frame all_columns [:: row2]) (Stats 1 1 11.0%float 1.0%float)
    [:: (jan2, [:: ("Reply"%string, 1)])] [:: ("Reply"%string, 11.0%float)]
    [:: ("Reply"%string, 1)] [:: ("B"%string, 1)]
    [:: ("B"%string, 1, 100.0%float)]
    [:: ("B"%string, 11.0%float)] [:: ("B"%string, 11.0%float)]
    [:: (10%Z, 1)] [:: ("Tuesday"%string, 1)] [:: row2].


Definition custom_inverted : widgets :=
  Widgets Custom jan2 jan1 "All"%string "All"%string ""%string.

Definition last_week : widgets :=
  Widgets Last7days 0 0 "All"%string "All"%string ""%string.

Definition author_b_spec : FilterSpec :=
  Spec jan1 jan2 "All"%string "B"%string ""%string.

(** * Properties *)

(** ** Patterns without metacharacters search for a substring *)

Section PlainPatterns.

Implicit Types (r : regex) (s p : seq ascii).

Lemma match_here_Alt r1 r2 s :
  match_here (Alt r1 r2) s = match_here r1 s || match_here r2 s.
Proof.
elim: s r1 r2 => [|d s IH] r1 r2 /=; first by rewrite !orbF.
by rewrite IH orbACA.
Qed.

Lemma match_here_Cat_Empty r s : match_here (Cat Empty r) s = false.
Proof. by elim: s => [|d s IH]. Qed.

Lemma match_here_Cat_Eps r s : match_here (Cat Eps r) s = match_here r s.
Proof.
by case: s => [|d s] //=; rewrite match_here_Alt match_here_Cat_Empty.
Qed.

Lemma match_here_lits p s : match_here (cat_all (map Lit p)) s = prefix_ci p s.
Proof.
elim: p s => [|c p IH] [|d s] //=.
case: (tolower d == tolower c) => /=; first by rewrite match_here_Cat_Eps IH.
by rewrite match_here_Cat_Empty.
Qed.

Lemma re_searchE r s :
  re_search r s
  = match_here r s || (if s is _ :: s' then re_search r s' else false).
Proof. by case: s. Qed.

Lemma re_search_lits p s : re_search (cat_all (map Lit p)) s = infix_ci p s.
Proof.
elim: s => [|d s IH]; rewrite re_searchE [infix_ci _ _]/= match_here_lits //.
by rewrite IH.
Qed.

Lemma classify_plain c : c \notin metachars -> classify c = TLit.
Proof. by case: c => [] [] [] [] [] [] [] [] []; vm_compute. Qed.

Lemma re_parse_plain p acc q :
  all (fun c => c \notin metachars) p ->
  re_parse [::] (Group [::] acc) q p = Ok (cat_all (rev acc ++ map Lit p)).
Proof.
elim: p acc q => [|c p IH] acc q /=; first by rewrite cats0.
case/andP => /classify_plain -> /IH ->.
by rewrite /push_item /= rev_cons cat_rcons.
Qed.

(** A search term without metacharacters always compiles, to the sequence
    of its characters. *)
Lemma re_compile_plain pat :
  is_plain pat -> re_compile pat = Ok (cat_all (map Lit (chars pat))).
Proof. by move=> pl; rewrite /re_compile re_parse_plain. Qed.

End PlainPatterns.

(** ** The matcher against the meaning of patterns *)

Section Derivatives.

Implicit Types (r : regex) (s : seq ascii) (d : ascii).

Lemma nullableP r : reflect (Matches r [::]) (nullable r).
Proof.
apply: (iffP idP).
  elim: r => //=; try by constructor.
  - by move=> r1 IH1 r2 IH2 /andP [/IH1 m1 /IH2 m2]; apply: (MCat m1 m2).
  - move=> r1 IH1 r2 IH2 /orP [/IH1 m | /IH2 m]; first exact: MAltL.
    exact: MAltR.
move: {-2}[::] (erefl (@nil ascii)) => s es m.
elim: m es => //=.
- move=> r1 r2 s1 s2 _ IH1 _ IH2 es.
  by case: s1 es IH1 => //= es ->; rewrite // IH2.
- by move=> r1 r2 s' _ IH es; rewrite IH.
- by move=> r1 r2 s' _ IH es; rewrite IH // orbT.
Qed.

Lemma Matches_Star_cons r d s :
  Matches (Star r) (d :: s) ->
  exists s1 s2, [/\ s = s1 ++ s2, Matches r (d :: s1) & Matches (Star r) s2].
Proof.
move: {-2}(Star r) (erefl (Star r)) {-2}(d :: s) (erefl (d :: s)) => r' er t et m.
elim: m er et => // r0 s1 s2 m1 _ m2 IH2 [er0] et.
subst r0.
case: s1 et m1 => [|c s1] /= et m1; first exact: (IH2 erefl et).
by case: et m1 => -> <- m1; exists s1, s2.
Qed.

Lemma derivP d r s : Matches (deriv d r) s <-> Matches r (d :: s).
Proof.
elim: r s => [| |c|| r1 IH1 r2 IH2 | r1 IH1 r2 IH2 | r1 IH1] s /=.
- by split=> m; inversion m.
- by split=> m; inversion m.
- case: eqP => [e|ne]; split=> m; inversion m; subst.
  + exact: MLit.
  + exact: MEps.
  + by case: ne.
- case: eqP => [e|ne]; split=> m; inversion m; subst => //.
  + exact: MAny.
  + exact: MEps.
- case: (nullableP r1) => [n1|n1]; split=> m.
  + inversion m as [| | | | ? ? ? m' | ? ? ? m' | |]; subst.
      inversion m' as [| | |? ? s1 s2 m1 m2| | | |]; subst.
      by apply: (@MCat _ _ (d :: s1)) => //; apply/IH1.
    by apply: (@MCat _ _ [::] (d :: s)) => //; apply/IH2.
  + inversion m as [| | |? ? s1 s2 m1 m2 e1 e2| | | |]; subst.
    case: s1 m1 e2 => [|c s1] m1 /= e2.
      by apply: MAltR; apply/IH2; rewrite -e2.
    case: e2 m1 => -> <- m1.
    by apply: MAltL; apply: MCat => //; apply/IH1.
  + inversion m as [| | |? ? s1 s2 m1 m2| | | |]; subst.
    by apply: (@MCat _ _ (d :: s1)) => //; apply/IH1.
  + inversion m as [| | |? ? s1 s2 m1 m2 e1 e2| | | |]; subst.
    case: s1 m1 e2 => [|c s1] m1 /= e2; first by case: n1.
    case: e2 m1 => -> <- m1.
    by apply: MCat => //; apply/IH1.
- split=> m; inversion m; subst.
  + by apply: MAltL; apply/IH1.
  + by apply: MAltR; apply/IH2.
  + by apply: MAltL; apply/IH1.
  + by apply: MAltR; apply/IH2.
- split=> m.
  + inversion m as [| | |? ? s1 s2 m1 m2| | | |]; subst.
    by apply: (@MStarS _ (d :: s1)) => //; apply/IH1.
  + case/Matches_Star_cons: m => s1 [s2 [-> m1 m2]].
    by apply: MCat => //; apply/IH1.
Qed.

Lemma match_hereP r s :
  reflect (exists s1 s2, s = s1 ++ s2 /\ Matches r s1) (match_here r s).
Proof.
apply: (iffP idP).
  elim: s r => [|d s IH] r /=.
    by rewrite orbF => /nullableP m; exists [::], [::].
  case/orP => [/nullableP m | /IH [s1 [s2 [-> /derivP m]]]].
    by exists [::], (d :: s).
  by exists (d :: s1), s2.
elim: s r => [|d s IH] r /= [s1 [s2 [es m]]].
  by case: s1 es m => // _ /nullableP ->.
case: s1 es m => [|c s1] /= es m; first by move/nullableP: m => ->.
case: es m => ed es m; rewrite -ed in m.
by apply/orP; right; apply: IH; exists s1, s2; split=> //; apply/derivP.
Qed.

(** A search succeeds exactly when some substring is matched. *)
Lemma re_searchP r s :
  reflect (exists s0 s1 s2, s = s0 ++ s1 ++ s2 /\ Matches r s1) (re_search r s).
Proof.
apply: (iffP idP).
  elim: s => [|d s IH] /=.
    by rewrite !orbF => /nullableP m; exists [::], [::], [::].
  case/orP => [/(match_hereP r (d :: s)) [s1 [s2 [-> m]]] | /IH [s0 [s1 [s2 [-> m]]]]].
    by exists [::], s1, s2.
  by exists (d :: s0), s1, s2.
elim: s => [|d s IH] [s0 [s1 [s2 [es m]]]].
  case: s0 es => //=; case: s1 m => //= m _.
  by rewrite !orbF; apply/nullableP.
have -> : re_search r (d :: s) = match_here r (d :: s) || re_search r s by [].
case: s0 es => [|c s0] es.
  by apply/orP; left; apply/match_hereP; exists s1, s2.
move: es => /= [_ es].
by apply/orP; right; apply: IH; exists s0, s1, s2.
Qed.
End Derivatives.

(** The substring test of the specification, spelled out. *)
Lemma prefix_ciP (p s : seq ascii) :
  reflect (exists s1 s2, s = s1 ++ s2 /\ map tolower s1 = map tolower p)
          (prefix_ci p s).
Proof.
apply: (iffP idP).
  elim: p s => [|c p IH] [|d s] //=; try by exists [::]; eexists.
  case/andP => /eqP ed /IH [s1 [s2 [-> e1]]].
  by exists (d :: s1), s2; rewrite /= ed e1.
elim: p s => [|c p IH] [|d s] //= [s1 [s2 [es e1]]].
- by case: s1 es e1.
- case: s1 es e1 => //= d' s1 [-> es] [-> e1]; rewrite eqxx /=.
  by apply: IH; exists s1, s2.
Qed.

Lemma infix_ciP (p s : seq ascii) :
  reflect (exists s0 s1 s2,
             s = s0 ++ s1 ++ s2 /\ map tolower s1 = map tolower p)
          (infix_ci p s).
Proof.
apply: (iffP idP).
  elim: s => [|d s IH] /=.
    by rewrite orbF => /prefix_ciP [s1 [s2 [es e1]]]; exists [::], s1, s2.
  case/orP => [/(prefix_ciP p (d :: s)) [s1 [s2 [es e1]]]
              | /IH [s0 [s1 [s2 [-> e1]]]]].
    by exists [::], s1, s2.
  by exists (d :: s0), s1, s2.
elim: s => [|d s IH] [s0 [s1 [s2 [es e1]]]].
  case: s0 es => //= es; rewrite /= orbF.
  by apply/prefix_ciP; exists s1, s2.
have -> : infix_ci p (d :: s) = prefix_ci p (d :: s) || infix_ci p s by [].
case: s0 es => [|c s0] es.
  by apply/orP; left; apply/prefix_ciP; exists s1, s2.
move: es => /= [_ es].
by apply/orP; right; apply: IH; exists s0, s1, s2.
Qed.

Open Scope string_scope.

(** ** Boolean columns are row predicates *)

Section Masks.

Variable T : Type.
Implicit Types (f g : T -> bool) (s : seq T).

Lemma and_series_map f g s :
  and_series [seq f x | x <- s] [seq g x | x <- s] = [seq f x && g x | x <- s].
Proof. by rewrite /and_series; elim: s => [|x s IH] //=; rewrite IH. Qed.

(** A test applied under a guard, as the three [if]s of the script do. *)
Lemma guarded_and (b : bool) f g s :
  (if b then and_series [seq f x | x <- s] [seq g x | x <- s]
   else [seq f x | x <- s])
  = [seq f x && (~~ b || g x) | x <- s].
Proof.
case: b => /=; first by rewrite and_series_map.
by apply: eq_map => x; rewrite andbT.
Qed.

End Masks.

Lemma range_maskE (df : seq message) (sp : FilterSpec) :
  and_series (ge_series (dt_date df) (start_date sp))
             (le_series (dt_date df) (end_date sp))
  = [seq in_range sp m | m <- df].
Proof.
rewrite /ge_series /le_series /dt_date -!map_comp and_series_map.
by apply: eq_map => m; rewrite /in_range /=; case: (date _).
Qed.

(** The mask of the script is the row predicate [selects], row by row. *)
Lemma build_maskE (df : seq message) (sp : FilterSpec) :
  build_mask df sp
  = let* o := search_pattern sp in Ok [seq selects sp o m | m <- df].
Proof.
rewrite /build_mask /search_pattern range_maskE /eq_series /str_contains.
rewrite -!map_comp !guarded_and.
case: (search_term sp != "") => /=.
  case: (re_compile _) => //= r.
  rewrite -map_comp and_series_map; congr Ok; apply: eq_map => m.
  by rewrite /selects /type_ok /author_ok /content_matches /= !negbK -!andbA.
congr Ok; apply: eq_map => m.
by rewrite /selects /type_ok /author_ok /= !negbK andbT -!andbA.
Qed.

Lemma apply_filtersE (df : seq message) (sp : FilterSpec) :
  apply_filters df sp
  = let* o := search_pattern sp in Ok [seq m <- df | selects sp o m].
Proof.
rewrite /apply_filters build_maskE.
by case: (search_pattern sp) => //= o; rewrite filter_mask.
Qed.

Lemma apply_filters_no_search df s e t a :
  apply_filters df (Spec s e t a "")
  = Ok [seq m <- df | selects (Spec s e t a "") None m].
Proof. by rewrite apply_filtersE. Qed.

Lemma mask_omittingE nt na ns (df : seq message) (sp : FilterSpec) :
  mask_omitting nt na ns df sp
  = let* o := (if ns then Ok None else search_pattern sp) in
    Ok [seq [&& in_range sp m, nt || type_ok sp m, na || author_ok sp m
           & if o is Some r then content_matches r m else true] | m <- df].
Proof.
rewrite /mask_omitting /search_pattern range_maskE /eq_series /str_contains.
rewrite -!map_comp !guarded_and.
case: ns => /=; last case: (search_term sp != "") => /=.
- congr Ok; apply: eq_map => m.
  by rewrite /type_ok /author_ok /= !negb_and !negbK andbT -!andbA -!orbA.
- case: (re_compile _) => //= r.
  rewrite -map_comp and_series_map; congr Ok; apply: eq_map => m.
  by rewrite /type_ok /author_ok /content_matches /= !negb_and !negbK -!andbA -!orbA.
- congr Ok; apply: eq_map => m.
  by rewrite /type_ok /author_ok /= !negb_and !negbK andbT -!andbA -!orbA.
Qed.

Lemma filter_omitting_none df sp :
  filter_omitting false false false df sp = apply_filters df sp.
Proof. by []. Qed.

Lemma in_range_inverted sp m :
  (end_date sp < start_date sp)%Z -> in_range sp m = false.
Proof.
move=> inv; rewrite /in_range; case: (date _) => [d|] //.
by apply/negP => /andP [/Z.leb_le ? /Z.leb_le ?]; lia.
Qed.

(** ** The filter, whatever the regular-expression engine *)

Section AnyEngine.

Variable pattern : Type.
Variable compile : string -> result pattern.
Variable search : pattern -> seq ascii -> bool.

Lemma build_mask_byE (df : seq message) (sp : FilterSpec) :
  build_mask_by compile search df sp
  = let* o := search_pattern_by compile sp in
    Ok [seq selects_by search sp o m | m <- df].
Proof.
rewrite /build_mask_by /search_pattern_by range_maskE /eq_series /str_contains_by.
rewrite -!map_comp !guarded_and.
case: (search_term sp != "") => /=.
  case: (compile _) => //= r.
  rewrite -map_comp and_series_map; congr Ok; apply: eq_map => m.
  by rewrite /selects_by /type_ok /author_ok /= !negbK -!andbA.
congr Ok; apply: eq_map => m.
by rewrite /selects_by /type_ok /author_ok /= !negbK andbT -!andbA.
Qed.

Lemma apply_filters_byE (df : seq message) (sp : FilterSpec) :
  apply_filters_by compile search df sp
  = let* o := search_pattern_by compile sp in
    Ok [seq m <- df | selects_by search sp o m].
Proof.
rewrite /apply_filters_by build_mask_byE.
by case: (search_pattern_by _ _) => //= o; rewrite filter_mask.
Qed.

(** Filtering what the filter kept keeps all of it. *)
Lemma apply_filters_by_idem df sp f :
  apply_filters_by compile search df sp = Ok f ->
  apply_filters_by compile search f sp = Ok f.
Proof.
rewrite !apply_filters_byE; case: (search_pattern_by _ _) => //= o [<-].
by rewrite filter_id.
Qed.

Lemma frame_filters_by_columns (df : frame (option Z)) sp filtered_df :
  frame_filters_by compile search df sp = Ok filtered_df ->
  columns filtered_df = columns df
  /\ apply_filters_by compile search (rows df) sp = Ok (rows filtered_df).
Proof.
rewrite /frame_filters_by.
case: (getitem df "timestamp") => //= _.
case: (if selected_type sp != "All" then _ else _) => //= _.
case: (if selected_author sp != "All" then _ else _) => //= _.
case: (if search_term sp != "" then _ else _) => //= _.
by case: (apply_filters_by _ _ _ _) => //= f [<-].
Qed.

Lemma frame_filters_by_idem (df : frame (option Z)) sp filtered_df :
  frame_filters_by compile search df sp = Ok filtered_df ->
  frame_filters_by compile search filtered_df sp = Ok filtered_df.
Proof.
move=> ff; have [cols /apply_filters_by_idem af] := frame_filters_by_columns ff.
move: ff; rewrite /frame_filters_by /getitem cols af.
case: ("timestamp" \in columns df) => //=.
case: (if selected_type sp != "All" then _ else _) => //= _.
case: (if selected_author sp != "All" then _ else _) => //= _.
case: (if search_term sp != "" then _ else _) => //= _.
by case: (filtered_df) cols => c r /= ->.
Qed.

(** No row lies in an inverted range. *)
Lemma inverted_range_keeps_nothing_by df sp o :
  (end_date sp < start_date sp)%Z ->
  [seq m <- df | selects_by search sp o m] = [::].
Proof.
move=> inv; rewrite -(filter_pred0 df); apply: eq_filter => m.
by rewrite /selects_by in_range_inverted.
Qed.

End AnyEngine.

(** The filter of the script is the one with the engine that is modelled. *)
Lemma apply_filters_by_modelled :
  apply_filters_by re_compile re_search = apply_filters.
Proof. by []. Qed.

Lemma frame_filters_unfold (df : frame (option Z)) sp :
  frame_filters df sp
  = (let* _ := getitem df "timestamp" in
     let* _ := if selected_type sp != "All" then getitem df "type" else Ok tt in
     let* _ := if selected_author sp != "All" then getitem df "author" else Ok tt in
     let* _ := if search_term sp != "" then getitem df "content" else Ok tt in
     let* f := apply_filters (rows df) sp in
     Ok (Frame (columns df) f)).
Proof. by []. Qed.

Lemma frame_pipeline_unfold (df : frame (option Z)) sp :
  frame_pipeline df sp
  = (let* filtered_df := frame_filters df sp in
     let* st := frame_metrics filtered_df in
     Ok (filtered_df, st)).
Proof. by []. Qed.

(** ** The search test on plain terms *)

Lemma search_ok_plain sp m :
  is_plain (search_term sp) -> search_ok sp m = spec_search sp m.
Proof.
rewrite /search_ok /spec_search => /re_compile_plain ->.
rewrite /content_matches /contains_ci.
by case: (content m) => [c|] //; rewrite re_search_lits.
Qed.

(** The search test of the script, spelled out: no test for an empty term,
    else the term compiles and some substring of the content, which must be
    present, is matched by it. *)
Lemma search_okP sp m :
  search_ok sp m <->
  search_term sp = "" \/
  exists r c s0 s1 s2,
    [/\ re_compile (search_term sp) = Ok r, content m = Some c,
        chars c = (s0 ++ s1 ++ s2)%SEQ & Matches r s1].
Proof.
rewrite /search_ok; case: eqP => [-> | ne] /=; first by split=> // _; left.
split.
  case E: (re_compile _) => [r| |] //; rewrite /content_matches.
  case C: (content m) => [c|] // /re_searchP [s0 [s1 [s2 [es mt]]]].
  by right; exists r, c, s0, s1, s2.
case=> // -[r [c [s0 [s1 [s2 [-> cm es mt]]]]]].
by rewrite /content_matches cm; apply/re_searchP; exists s0, s1, s2.
Qed.

(** ** Normalisation *)

Section Normalisation.

Implicit Types (data : seq record) (r : record).

Lemma to_datetime_cellE r :
  ~~ reads_clock r -> to_datetime_cell (cell (raw_timestamp r)) = Ok (parsed r).
Proof.
rewrite /reads_clock /to_datetime_cell /parsed; case: (cell _) => [s|] //.
by case: (iso_to_utc s) => //= /negbTE ->.
Qed.

Lemma convert_cellsE data :
  ~~ has reads_clock data ->
  convert_cells [seq cell (raw_timestamp r) | r <- data]
  = Ok [seq parsed r | r <- data].
Proof.
elim: data => [|r data IH] //=; rewrite negb_or => /andP [nr /IH ->].
by rewrite to_datetime_cellE.
Qed.

Lemma convert_cells_clock data :
  has reads_clock data ->
  forall ts, convert_cells [seq cell (raw_timestamp r) | r <- data] <> Ok ts.
Proof.
elim: data => [|r data IH] //= /orP [rc | /IH nok] ts.
  move: rc; rewrite /reads_clock /to_datetime_cell.
  by case: (cell _) => [s|] //; case: (iso_to_utc s) => //= ->.
case: (to_datetime_cell _) => //= t.
by case E: (convert_cells _) => [ts'| |] //; case: (nok ts').
Qed.

Lemma convert_cells_no_raise col e : convert_cells col <> Raise e.
Proof.
elim: col => [|v col IH] //=.
case Ev: (to_datetime_cell v) => [t|e'|] //=.
  by case Ec: (convert_cells col) => [ts|e'|] //= -[ee]; apply: IH; rewrite Ec ee.
move: Ev; rewrite /to_datetime_cell; case: v => [s|] //.
by case: (iso_to_utc s) => //; case: (_ || _).
Qed.

Lemma to_datetimeE data :
  ~~ mixed_zones data -> ~~ has reads_clock data ->
  to_datetime [seq cell (raw_timestamp r) | r <- data]
  = Ok [seq parsed r | r <- data].
Proof.
by rewrite /mixed_zones /to_datetime => /negbTE -> /convert_cellsE.
Qed.

(** What a conversion that returns tells of the export. *)
Lemma to_datetime_inv data ts :
  to_datetime [seq cell (raw_timestamp r) | r <- data] = Ok ts ->
  ~~ mixed_zones data /\ ~~ has reads_clock data.
Proof.
rewrite /to_datetime /mixed_zones; case: (mixes_offsets _) => // E; split=> //.
by apply/negP => /convert_cells_clock /(_ ts).
Qed.

(** [errors='coerce']: the conversion itself never raises. *)
Lemma to_datetime_no_raise col e : to_datetime col <> Raise e.
Proof.
by rewrite /to_datetime; case: (mixes_offsets col) => //; exact: convert_cells_no_raise.
Qed.

(** The three column operations of [convert_to_df], read row by row. *)
Lemma normalised_rows data :
  rows (fillna_type
          (dropna (set_timestamp (DataFrame data) [seq parsed r | r <- data]))
          "Default")
  = pmap normalise data.
Proof.
rewrite /fillna_type /dropna /set_timestamp /DataFrame /=.
elim: data => [|r data IH] //=; rewrite /normalise /parsed.
case: (cell (raw_timestamp r)) => [s|] //=.
by case: (iso_to_utc s) => [t|] //=; rewrite IH.
Qed.

(** The labels of the frame, one for each key that some record has. *)
Lemma columns_DataFrame data (label : string) :
  (label \in columns (DataFrame data))
  = [|| (label == "timestamp") && has (fun r => present (raw_timestamp r)) data,
        (label == "author") && has (fun r => present (raw_author r)) data,
        (label == "content") && has (fun r => present (raw_content r)) data
      | (label == "type") && has (fun r => present (raw_type r)) data].
Proof.
rewrite /DataFrame /label_of /= !mem_cat.
by do 4! [case: (has _ data); rewrite ?inE ?in_nil ?andbT ?andbF].
Qed.

Lemma timestamp_column data :
  ("timestamp" \in columns (DataFrame data))
  = has (fun r => present (raw_timestamp r)) data.
Proof. by rewrite columns_DataFrame /= !orbF. Qed.

Lemma type_column data :
  ("type" \in columns (DataFrame data))
  = has (fun r => present (raw_type r)) data.
Proof. by rewrite columns_DataFrame /=. Qed.

Lemma convert_to_df_ok data :
  has (fun r => present (raw_timestamp r)) data ->
  has (fun r => present (raw_type r)) data ->
  ~~ mixed_zones data -> ~~ has reads_clock data ->
  convert_to_df data
  = Ok (Some (Frame (columns (DataFrame data)) (pmap normalise data))).
Proof.
move=> hts hty nmix nclock.
rewrite /convert_to_df /try_convert /getitem timestamp_column hts /=.
rewrite -map_comp (@eq_map _ _ _ (cell \o raw_timestamp)) // to_datetimeE //=.
by rewrite type_column hty /= -(normalised_rows data).
Qed.

Lemma columns_converted (df : frame (option string)) (ts : seq (option Z)) :
  columns (dropna (set_timestamp df ts)) = columns df.
Proof. by []. Qed.

Lemma convert_to_df_inv data fr :
  convert_to_df data = Ok (Some fr) ->
  [/\ has (fun r => present (raw_timestamp r)) data,
      has (fun r => present (raw_type r)) data,
      ~~ mixed_zones data, ~~ has reads_clock data
    & fr = Frame (columns (DataFrame data)) (pmap normalise data)].
Proof.
move=> conv.
case hts: (has (fun r => present (raw_timestamp r)) data); last first.
  move: conv.
  by rewrite /convert_to_df /try_convert /report_and_fail /getitem
             timestamp_column hts.
move: (conv).
rewrite /convert_to_df /try_convert /report_and_fail /getitem
        timestamp_column hts /bind.
rewrite -map_comp (@eq_map _ _ _ (cell \o raw_timestamp)) //.
case E: (to_datetime _) => [ts|e|] //.
have [nmix nclock] := to_datetime_inv E.
rewrite columns_converted type_column; case hty: (has _ data) => // _.
by move: conv; rewrite convert_to_df_ok // => -[<-].
Qed.

(** The [return None] of the handler is never reached: the only statement of
    the [try] that raises is the subscript, and the handler repeats it. *)
Lemma convert_to_df_not_None data : convert_to_df data <> Ok None.
Proof.
rewrite /convert_to_df /try_convert /report_and_fail /getitem.
case: ("timestamp" \in _) => //=.
case E: (to_datetime _) => [ts|e|] //=; last by case: (to_datetime_no_raise E).
by case: ("type" \in _) => /= H; discriminate H.
Qed.

Lemma normalise_normalized data : normalized (pmap normalise data).
Proof.
elim: data => [|r data IH] //=; rewrite /normalise.
case: (cell (raw_timestamp r)) => [s|] //=.
by case: (iso_to_utc s) => [t|].
Qed.

(** Whenever [convert_to_df] returns a table, it is the records whose
    timestamp parses, in order, each with its UTC instant and with
    [Default] for a missing type; so the table is normalized. *)
Lemma convert_to_df_rows data fr :
  convert_to_df data = Ok (Some fr) ->
  rows fr = pmap normalise data /\ normalized (rows fr).
Proof.
by case/convert_to_df_inv => _ _ _ _ ->; split=> //=; exact: normalise_normalized.
Qed.

End Normalisation.

(** An offset is taken off: noon at +02:00 is ten o'clock UTC. *)
Example offset_is_normalised :
  iso_to_utc "2024-01-01T12:00:00+02:00" = iso_to_utc "2024-01-01T10:00:00Z".
Proof. by vm_compute. Qed.

Example dot_matches_any_character :
  re_compile "." = Ok (Cat Any Eps) /\ re_search (Cat Any Eps) (chars "hi").
Proof. by split; vm_compute. Qed.

Example open_parenthesis_is_no_pattern : re_compile "(" = Raise ReError.
Proof. by vm_compute. Qed.

(** ** The claims *)

(** Every empty filtered table stops the metrics at the division. *)
Lemma empty_subset_faults df sp :
  apply_filters df sp = Ok [::] -> pipeline df sp = Raise ZeroDivisionError.
Proof. by rewrite /pipeline => ->. Qed.

(** C1 (defect of the code).  On an empty filtered table the count is 0 and
    the mean length is NaN, but messages-per-day is not guarded: the
    division of 0 messages by 0 dates raises ZeroDivisionError.  Shown on
    the two example rows with a search that matches neither. *)
Theorem empty_filter_divides_by_zero :
  [/\ apply_filters two_rows no_match_spec = Ok [::],
      avg_length [::] = nan,
      messages_per_day [::] = Raise ZeroDivisionError
    & pipeline two_rows no_match_spec = Raise ZeroDivisionError].
Proof. by split; vm_compute. Qed.

(** C2, as stated, fails: the search term is a pattern, so [.] keeps a row
    whose content [hi] does not contain a dot. *)
Lemma substring_search_fails :
  ~ (forall df sp f, apply_filters df sp = Ok f ->
       forall m, (m \in f) = (m \in df) && spec_selects sp m).
Proof.
move/(_ [:: row1] dot_spec [:: row1] erefl row1).
by vm_compute.
Qed.

(** C2 (amended).  When filtering returns, a message is in the filtered
    table exactly when it is in the table and its date lies in the range
    (both ends included), its type is the selected one unless that is
    [All], its author is the selected one unless that is [All], and, unless
    the search term is empty, its content is present and has a match of the
    term read as a case-insensitive pattern; for a term without
    metacharacters that is: the content contains the term, case ignored. *)
Theorem filter_membership df sp f m :
  apply_filters df sp = Ok f ->
  ((m \in f) = (m \in df)
               && [&& in_range sp m, type_ok sp m, author_ok sp m & search_ok sp m])
  /\ (is_plain (search_term sp) -> search_ok sp m = spec_search sp m).
Proof.
rewrite apply_filtersE /search_pattern => H; split; last exact: search_ok_plain.
move: H; rewrite /search_ok; case: eqP => _ /=.
  by case=> <-; rewrite mem_filter andbC /selects.
by case: (re_compile _) => //= r [<-]; rewrite mem_filter andbC /selects.
Qed.

Lemma filter_membership_witness :
  apply_filters two_rows hello_spec = Ok [:: row2]
  /\ ((row2 \in [:: row2]) = (row2 \in two_rows)
        && [&& in_range hello_spec row2, type_ok hello_spec row2,
               author_ok hello_spec row2 & search_ok hello_spec row2])
  /\ (is_plain (search_term hello_spec) ->
      search_ok hello_spec row2 = spec_search hello_spec row2).
Proof.
split; [vm_compute; reflexivity |].
apply (@filter_membership two_rows hello_spec [:: row2] row2).
vm_compute; reflexivity.
Defined.


(** On a frame without rows the minimum and maximum dates are NaT, and
    under a preset the date range built from them raises ValueError. *)
Lemma render_empty (df : frame (option Z)) w :
  "timestamp" \in columns df -> rows df = [::] -> w_preset w <> Custom ->
  render df w = Raise ValueError.
Proof.
move=> hts empty; rewrite /render /frame_sidebar /getitem hts empty /=.
by case: (w_preset w).
Qed.




(** Without a type key in any record the same export is an error: the slip
    of C4. *)
Example unparsable_untyped_raises :
  all unparsable [:: not_a_date_untyped]
  /\ convert_to_df [:: not_a_date_untyped] = Raise (KeyError "type").
Proof. by split; vm_compute. Qed.

(** C4 (defect of the code).  A missing type is not always replaced by
    [Default]: when no record at all has a type, the frame has no such
    column and the subscript on line 25 raises KeyError instead.  (Where
    the table is returned, [convert_to_df_rows] gives the claim.) *)
Theorem missing_type_column_raises :
  convert_to_df [:: untyped] = Raise (KeyError "type").
Proof. by vm_compute. Qed.

(** C5.  The two example records, filtered by a date range that covers both
    days and by nothing else: 2 messages, 1 reply, mean length 6.5, and 1.0
    messages a day. *)
Theorem two_record_example s e :
  (s <= jan1)%Z -> (jan2 <= e)%Z ->
  convert_to_df two_records
  = Ok (Some (Frame [:: "timestamp"; "author"; "content"; "type"] two_rows))
  /\ pipeline two_rows (Spec s e "All" "All" "")
     = Ok (two_rows, Stats 2 1 6.5 1.0).
Proof.
move=> lo hi; split; first by vm_compute.
have keep :
    [seq m <- two_rows | selects (Spec s e "All" "All" "") None m] = two_rows.
  have d1 : date (timestamp row1) = Some jan1 by vm_compute.
  have d2 : date (timestamp row2) = Some jan2 by vm_compute.
  have j12 : (jan1 <= jan2)%Z by vm_compute.
  rewrite /= /selects /in_range d1 d2 /=.
  by rewrite !(proj2 (Z.leb_le _ _)) //; lia.
have af : apply_filters two_rows (Spec s e "All" "All" "") = Ok two_rows.
  by rewrite apply_filters_no_search keep.
by rewrite /pipeline af; vm_compute.
Qed.

Lemma two_record_example_witness :
  convert_to_df two_records
  = Ok (Some (Frame [:: "timestamp"; "author"; "content"; "type"] two_rows))
  /\ pipeline two_rows (Spec jan1 jan2 "All" "All" "")
     = Ok (two_rows, Stats 2 1 6.5 1.0).
Proof.
apply (@two_record_example jan1 jan2).
- lia.
- lia.
Defined.

(** C6.  Filtering is idempotent, and the metrics and every chart and table
    of the page are computed from the filtered frame and from nothing else.
    Whatever Python's [re] makes of the search text: when filtering returns
    a filtered frame, filtering that frame again with the same FilterSpec
    returns it unchanged; the filter and the metrics run on it end as they
    do on the frame, with the same metrics or with the same error (as on an
    empty result); and the results the script can show for the filtered
    frame and the FilterSpec are the results it can show for the frame. *)
Theorem filtering_is_idempotent (pattern : Type)
    (compile : string -> result pattern)
    (search : pattern -> seq ascii -> bool)
    (df : frame (option Z)) sp filtered_df :
  frame_filters_by compile search df sp = Ok filtered_df ->
  [/\ frame_filters_by compile search filtered_df sp = Ok filtered_df,
      frame_pipeline_by compile search filtered_df sp
      = frame_pipeline_by compile search df sp
    & forall R, is_result_by compile search filtered_df sp R
                <-> is_result_by compile search df sp R].
Proof.
move=> ff; have idem := frame_filters_by_idem ff.
split=> // [|R]; first by rewrite /frame_pipeline_by idem ff.
by rewrite /is_result_by; split=> -[eqR]; move: (eqR); rewrite ?idem ?ff => -[<-].
Qed.

Example reply_result_is_shown :
  is_result (Frame all_columns two_rows) reply_spec reply_result.
Proof.
split; try by vm_compute.
- by split; try (by vm_compute); exists [:: ("B", 1)].
- by split; try (by vm_compute); exists [:: ("B", 11.0%float)].
Qed.

Lemma filtering_is_idempotent_witness :
  let filtered_df := Frame all_columns [:: row2] in
  [/\ frame_filters filtered_df reply_spec = Ok filtered_df,
      frame_pipeline filtered_df reply_spec
      = frame_pipeline (Frame all_columns two_rows) reply_spec
    & forall R, is_result filtered_df reply_spec R
                <-> is_result (Frame all_columns two_rows) reply_spec R].
Proof.
apply (@filtering_is_idempotent regex re_compile re_search
         (Frame all_columns two_rows) reply_spec (Frame all_columns [:: row2])).
vm_compute; reflexivity.
Defined.

(** C7.  Selecting [All] as the type gives the filtered table of the filter
    without the type test, whatever type that one is given; the same holds
    of [All] as the author and the author test, and of the empty search
    term and the search test. *)
Theorem all_is_no_predicate df s e t a q :
  [/\ apply_filters df (Spec s e "All" a q)
      = filter_omitting true false false df (Spec s e t a q),
      apply_filters df (Spec s e t "All" q)
      = filter_omitting false true false df (Spec s e t a q)
    & apply_filters df (Spec s e t a "")
      = filter_omitting false false true df (Spec s e t a q)].
Proof.
rewrite /filter_omitting !mask_omittingE /apply_filters !build_maskE.
rewrite /search_pattern /selects /type_ok /author_ok /=.
by split.
Qed.

(** C8, as stated, fails: with an inverted range and a search term that is
    no pattern, filtering raises. *)
Lemma inverted_range_bad_pattern_raises :
  [/\ (end_date inverted_bad_spec < start_date inverted_bad_spec)%Z,
      apply_filters two_rows inverted_bad_spec = Raise ReError
    & frame_filters (Frame all_columns two_rows) inverted_bad_spec
      = Raise ReError].
Proof. by split; vm_compute. Qed.

(** No row lies in an inverted range. *)
Lemma inverted_range_keeps_nothing df sp o :
  (end_date sp < start_date sp)%Z -> [seq m <- df | selects sp o m] = [::].
Proof.
move=> inv; rewrite -(filter_pred0 df); apply: eq_filter => m.
by rewrite /selects in_range_inverted.
Qed.

(** C8 (amended).  On a frame with its timestamp, type and author columns,
    filtering with an inverted date range returns the empty table, without
    an error, when the search term is empty, or when the frame has a
    content column and the search term is a pattern that [re.compile]
    accepts: whatever Python's [re] is, and so for the patterns that
    [re_compile] accepts, among them every term without metacharacters
    ([re_compile_plain]).  The order of the two dates is not checked. *)
Theorem inverted_range_is_empty (pattern : Type)
    (compile : string -> result pattern)
    (search : pattern -> seq ascii -> bool)
    (df : frame (option Z)) sp :
  (end_date sp < start_date sp)%Z ->
  has_columns [:: "timestamp"; "type"; "author"] df ->
  search_term sp = ""
  \/ ("content" \in columns df /\ exists r, compile (search_term sp) = Ok r) ->
  frame_filters_by compile search df sp = Ok (Frame (columns df) [::]).
Proof.
move=> inv /and4P [hts hty hau _] ok.
have af : apply_filters_by compile search (rows df) sp = Ok [::].
  rewrite apply_filters_byE /search_pattern_by.
  case: ok => [-> /= | [_ [r ->]]]; first by rewrite inverted_range_keeps_nothing_by.
  by case: (_ != _) => /=; rewrite inverted_range_keeps_nothing_by.
rewrite /frame_filters_by /getitem hts hty hau af /= !if_same /=.
by case: ok => [-> | [-> _]] //=; rewrite if_same.
Qed.

Lemma inverted_range_witness :
  frame_filters (Frame all_columns two_rows) inverted_spec
  = Ok (Frame (columns (Frame all_columns two_rows)) [::]).
Proof.
apply (@inverted_range_is_empty regex re_compile re_search
         (Frame all_columns two_rows) inverted_spec).
- vm_compute; reflexivity.
- vm_compute; reflexivity.
- right; split; [vm_compute; reflexivity |].
  eexists; vm_compute; reflexivity.
Defined.

(** C9, as stated, fails: computing the minimum and maximum dates of an
    empty table does not fault; both are NaT. *)
Lemma min_max_dates_of_empty_do_not_fault :
  min_max_dates [::] = Ok (None, None)
  /\ ~ (exists e, min_max_dates [::] = Raise e).
Proof. by split=> // -[e]. Qed.

(** C9 (amended).  When normalisation succeeds with an empty table, the
    run faults right after the minimum and maximum dates: they are NaT, and
    under every preset range the date range built from them raises
    ValueError.  The rest of the script needs a non-empty table. *)
Theorem empty_table_faults_at_date_range data fr w :
  convert_to_df data = Ok (Some fr) -> rows fr = [::] ->
  w_preset w <> Custom ->
  dashboard data w = Raise ValueError.
Proof.
move=> conv empty preset; rewrite /dashboard conv /=.
apply: render_empty => //.
by case/convert_to_df_inv: conv => hts _ _ _ ->; rewrite timestamp_column.
Qed.

Lemma empty_table_faults_witness :
  dashboard [:: not_a_date] all_time = Raise ValueError.
Proof.
apply (@empty_table_faults_at_date_range [:: not_a_date] empty_frame).
- vm_compute; reflexivity.
- reflexivity.
- discriminate.
Defined.

(** C10.  The filter step leaves the table as it is, and the filtered table
    is a subsequence of it: the rows picked by a mask as long as the table,
    each at most once and in their order. *)
Theorem filter_selects_subsequence sp s s' :
  filter_step sp s = Ok s' ->
  [/\ s_df s' = s_df s,
      subseq (s_filtered_df s') (s_df s)
    & exists2 m, size m = size (s_df s) & s_filtered_df s' = mask m (s_df s)].
Proof.
rewrite /filter_step /apply_filters build_maskE.
case: (search_pattern sp) => //= o [<-] /=; split=> //; first exact: mask_subseq.
by exists [seq selects sp o m | m <- s_df s]; rewrite ?size_map.
Qed.

Lemma filter_selects_subsequence_witness :
  [/\ s_df (Session two_rows [:: row2] None) = s_df fresh_session,
      subseq (s_filtered_df (Session two_rows [:: row2] None)) (s_df fresh_session)
    & exists2 m, size m = size (s_df fresh_session)
               & s_filtered_df (Session two_rows [:: row2] None)
                 = mask m (s_df fresh_session)].
Proof.
apply (@filter_selects_subsequence reply_spec fresh_session
         (Session two_rows [:: row2] None)).
vm_compute; reflexivity.
Defined.

(** * Further properties of the script *)

(** ** Loading: what [convert_to_df] does at its edges *)

Lemma no_timestamp_column data :
  ~~ has (fun r => present (raw_timestamp r)) data ->
  convert_to_df data = Raise (KeyError "timestamp").
Proof.
move/negbTE => hts.
by rewrite /convert_to_df /try_convert /report_and_fail /getitem
           timestamp_column hts.
Qed.

(** X1.  When no record has a timestamp key, and so for the empty export,
    the subscript in the [try] raises KeyError, the handler raises it again
    while reporting, and the run ends with that KeyError. *)
Theorem export_without_timestamps_raises data w :
  ~~ has (fun r => present (raw_timestamp r)) data ->
  convert_to_df data = Raise (KeyError "timestamp")
  /\ dashboard data w = Raise (KeyError "timestamp").
Proof. by move=> h; rewrite /dashboard no_timestamp_column. Qed.

Lemma export_without_timestamps_witness :
  convert_to_df [::] = Raise (KeyError "timestamp")
  /\ dashboard [::] all_time = Raise (KeyError "timestamp").
Proof.
apply (@export_without_timestamps_raises [::] all_time).
vm_compute; reflexivity.
Defined.

(** X2.  No export and no widget values make the run stop with the failure
    notice of lines 35 to 37: [convert_to_df] never returns None. *)
Theorem failure_notice_is_unreachable data w : dashboard data w <> Ok Stopped.
Proof.
rewrite /dashboard.
case E: (convert_to_df data) => [[fr|]| |] //=.
- by rewrite /render; case: (frame_sidebar _ _) => //= sw; case: (frame_pipeline _ _).
- by case: (convert_to_df_not_None E).
Qed.

Lemma normaliseE r :
  normalise r
  = if parsed r is Some t
    then Some (Row (Some t) (cell (raw_author r)) (cell (raw_content r))
                 (Some (if cell (raw_type r) is Some y then y else "Default")))
    else None.
Proof.
by rewrite /normalise /parsed; case: (cell (raw_timestamp r)) => [s|].
Qed.

Lemma pmap_normalise data :
  pmap normalise data
  = [seq Row (parsed r) (cell (raw_author r)) (cell (raw_content r))
             (Some (if cell (raw_type r) is Some y then y else "Default"))
    | r <- data & isSome (parsed r)].
Proof.
elim: data => [|r data IH] //=; rewrite normaliseE.
by case E: (parsed r) => [t|] /=; rewrite ?E IH.
Qed.

(** X3.  Normalisation touches neither the author nor the content and keeps
    the order: for an export whose timestamps do not mix numeric offsets
    with times without zone, the table lists, for the records whose
    timestamp parses and in the order of the export, their author, content
    and parsed instant; it never has more rows than the export has
    records. *)
Theorem normalisation_keeps_order_and_text data fr :
  ~~ mixed_zones data ->
  convert_to_df data = Ok (Some fr) ->
  [/\ [seq (author m, content m) | m <- rows fr]
      = [seq (cell (raw_author r), cell (raw_content r))
        | r <- data & isSome (parsed r)],
      [seq timestamp m | m <- rows fr]
      = [seq parsed r | r <- data & isSome (parsed r)]
    & size (rows fr) <= size data].
Proof.
move=> _ /convert_to_df_inv [_ _ _ _ ->] /=.
rewrite pmap_normalise -!map_comp; split=> //.
by rewrite size_map size_filter count_size.
Qed.

Lemma normalisation_keeps_order_witness :
  [/\ [seq (author m, content m) | m <- two_rows]
      = [seq (cell (raw_author r), cell (raw_content r))
        | r <- two_records & isSome (parsed r)],
      [seq timestamp m | m <- two_rows]
      = [seq parsed r | r <- two_records & isSome (parsed r)]
    & size two_rows <= size two_records].
Proof.
apply (@normalisation_keeps_order_and_text two_records
         (Frame all_columns two_rows)).
- vm_compute; reflexivity.
- vm_compute; reflexivity.
Defined.

(** ** The sidebar: the date range it derives *)

Section MinMax.

Lemma foldl_zmin x xs :
  foldl zmin x xs \in x :: xs
  /\ (forall y, y \in x :: xs -> (foldl zmin x xs <= y)%Z).
Proof.
elim: xs x => [|z xs IH] x /=.
  by rewrite inE eqxx; split=> // y; rewrite inE => /eqP ->; lia.
have [mem le] := IH (zmin x z); split.
  move: mem; rewrite !inE /zmin; case: Z.leb_spec => _ /orP [/eqP -> | ->];
    by rewrite ?eqxx ?orbT.
move=> y; rewrite !inE => hy.
have lx : (foldl zmin (zmin x z) xs <= zmin x z)%Z by apply: le; rewrite inE eqxx.
case/or3P: hy => [/eqP -> | /eqP -> | hy]; last by apply: le; rewrite inE hy orbT.
  by move: lx; rewrite /zmin; case: Z.leb_spec; lia.
by move: lx; rewrite /zmin; case: Z.leb_spec; lia.
Qed.

Lemma foldl_zmax x xs :
  foldl zmax x xs \in x :: xs
  /\ (forall y, y \in x :: xs -> (y <= foldl zmax x xs)%Z).
Proof.
elim: xs x => [|z xs IH] x /=.
  by rewrite inE eqxx; split=> // y; rewrite inE => /eqP ->; lia.
have [mem le] := IH (zmax x z); split.
  move: mem; rewrite !inE /zmax; case: Z.leb_spec => _ /orP [/eqP -> | ->];
    by rewrite ?eqxx ?orbT.
move=> y; rewrite !inE => hy.
have lx : (zmax x z <= foldl zmax (zmax x z) xs)%Z by apply: le; rewrite inE eqxx.
case/or3P: hy => [/eqP -> | /eqP -> | hy]; last by apply: le; rewrite inE hy orbT.
  by move: lx; rewrite /zmax; case: Z.leb_spec; lia.
by move: lx; rewrite /zmax; case: Z.leb_spec; lia.
Qed.

Lemma date_of_ns_mono a b : (a <= b)%Z -> (date_of_ns a <= date_of_ns b)%Z.
Proof. by move=> ab; apply: Z.div_le_mono. Qed.

(** On a non-empty table whose rows all carry a timestamp, the two dates of
    lines 53 and 54 are the dates of two rows of the table, and the date of
    every row lies between them. *)
Lemma min_max_datesP (df : seq message) :
  df <> [::] -> all (fun m => isSome (timestamp m)) df ->
  exists lo hi,
    [/\ min_max_dates df = Ok (Some lo, Some hi),
        Some lo \in dt_date df, Some hi \in dt_date df
      & forall m, m \in df ->
          exists2 d, date (timestamp m) = Some d & (lo <= d <= hi)%Z].
Proof.
move=> ne ts.
have E : [seq timestamp m | m <- df]
         = [seq Some t | t <- pmap id [seq timestamp m | m <- df]].
  elim: df ts {ne} => [|m df IH] //= /andP [].
  by case: (timestamp m) => //= t _ /IH <-.
have mem m : m \in df -> exists2 t, timestamp m = Some t
                           & t \in pmap id [seq timestamp m | m <- df].
  move=> hm; have : timestamp m \in [seq timestamp m | m <- df] by apply: map_f.
  by rewrite {1}E => /mapP [t ht ->]; exists t.
move: mem E; rewrite /min_max_dates /series_min /series_max /series_fold.
case: (pmap id _) => [|x xs] mem E.
  by case: df ne {ts mem} E.
have [mn_in mn_le] := foldl_zmin x xs; have [mx_in mx_le] := foldl_zmax x xs.
exists (date_of_ns (foldl zmin x xs)), (date_of_ns (foldl zmax x xs)); split=> //.
- rewrite /dt_date (map_comp date) E -map_comp.
  by apply/mapP; exists (foldl zmin x xs).
- rewrite /dt_date (map_comp date) E -map_comp.
  by apply/mapP; exists (foldl zmax x xs).
move=> m /mem [t -> ht]; exists (date_of_ns t) => //.
by split; apply: date_of_ns_mono; [apply: mn_le | apply: mx_le].
Qed.

End MinMax.

Lemma replies_count (f : seq message) :
  replies f = count (fun m => type m == Some "Reply") f.
Proof.
by rewrite /replies /eq_series -map_comp size_mask ?size_map // count_map.
Qed.

Lemma messages_per_day_nonempty (f : seq message) :
  f <> [::] -> exists mpd, messages_per_day f = Ok mpd.
Proof.
move=> ne; rewrite /messages_per_day.
case E: (undup (dt_date f)) => [|d ds] /=; last by eexists.
by move/undup_nil: E; case: f ne.
Qed.

Lemma top_row_nonempty (f : seq message) :
  f <> [::] ->
  exists mpd,
    top_row f
    = Ok (Stats (size f) (count (fun m => type m == Some "Reply") f)
                (avg_length f) mpd).
Proof.
move=> /messages_per_day_nonempty [mpd E].
by exists mpd; rewrite /top_row E replies_count.
Qed.

(** *** The sidebar, the filter and the metrics on a frame *)

Lemma day_in_bounds_between lo hi d :
  day_in_bounds lo -> day_in_bounds hi -> (lo <= d <= hi)%Z -> day_in_bounds d.
Proof.
rewrite /day_in_bounds /in_bounds /ns_per_day /ns_per_sec.
move=> /andP [/Z.ltb_lt l1 _] /andP [_ /Z.ltb_lt h2] [ld dh].
by apply/andP; split; apply/Z.ltb_lt; lia.
Qed.

Lemma dated_in_bounds (df : seq message) d :
  all (fun m => has_midnight (timestamp m)) df ->
  Some d \in dt_date df -> day_in_bounds d.
Proof.
move=> /allP mid /mapP [m /mid]; rewrite /has_midnight /date.
by case: (timestamp m) => //= t ok [->].
Qed.

Lemma has_midnight_isSome (df : seq message) :
  all (fun m => has_midnight (timestamp m)) df ->
  all (fun m => isSome (timestamp m)) df.
Proof. by apply: sub_all => m; rewrite /has_midnight; case: (timestamp m). Qed.

(** With an author in every row, the options of line 85 are [All] and the
    authors in increasing order. *)
Lemma author_options_all (df : seq message) :
  all (fun m => isSome (author m)) df ->
  author_options df
  = Ok ("All" :: sort String.leb (pmap id (undup [seq author m | m <- df]))).
Proof.
move=> au; rewrite /author_options.
have -> // : all isSome (undup [seq author m | m <- df]).
apply/allP => a; rewrite mem_undup => /mapP [m hm ->].
by move/allP: au; apply.
Qed.

Lemma mem_author_options (df : seq message) a :
  (a \in sort String.leb (pmap id (undup [seq author m | m <- df])))
  = (Some a \in [seq author m | m <- df]).
Proof. by rewrite mem_sort mem_pmap map_id mem_undup. Qed.

Lemma frame_sidebar_ok (df : frame (option Z)) w lo hi s e :
  has_columns [:: "timestamp"; "author"] df ->
  min_max_dates (rows df) = Ok (Some lo, Some hi) ->
  all (fun m => isSome (author m)) (rows df) ->
  chosen_range lo hi w = Some (s, e) ->
  day_in_bounds s -> day_in_bounds e ->
  w_type w \in message_types ->
  (w_author w == "All") || (Some (w_author w) \in [seq author m | m <- rows df]) ->
  frame_sidebar df w
  = Ok (Spec s e (w_type w) (w_author w) (w_search w), size (days_between s e)).
Proof.
move=> /and3P [hts hau _] mm au ch bs be ty ao.
have sel : selectbox ("All" :: sort String.leb
                        (pmap id (undup [seq author m | m <- rows df])))
             (w_author w) = Ok (w_author w).
  by rewrite /selectbox inE mem_author_options ao.
rewrite /frame_sidebar /getitem hts hau mm /=.
move: ch bs be; rewrite /chosen_range /date_input_within.
by case: (w_preset w) => [||||]; [case: ifP => // /and4P [-> -> -> ->] | | | |];
   case=> <- <- bs be /=; rewrite /range_bound bs be /= /selectbox ty /=
                                  author_options_all //= -/(selectbox _ _) sel.
Qed.

Lemma size_days_between s e : size (days_between s e) = Z.to_nat (e - s + 1).
Proof. by rewrite /days_between size_map size_iota. Qed.

(** With neither type nor author nor search text, the filter is the test
    of the date range, and needs the timestamp column only. *)
Lemma frame_filters_range (df : frame (option Z)) s e :
  "timestamp" \in columns df ->
  frame_filters df (Spec s e "All" "All" "")
  = Ok (Frame (columns df)
          [seq m <- rows df | in_range (Spec s e "All" "All" "") m]).
Proof.
move=> hts; rewrite frame_filters_unfold /getitem hts apply_filters_no_search /=.
by congr (Ok (Frame _ _)); apply: eq_filter => m; rewrite /selects /= andbT.
Qed.

Lemma frame_metrics_nonempty (filtered_df : frame (option Z)) :
  has_columns [:: "type"; "content"; "timestamp"] filtered_df ->
  rows filtered_df <> [::] ->
  exists mpd,
    frame_metrics filtered_df
    = Ok (Stats (size (rows filtered_df))
                (count (fun m => type m == Some "Reply") (rows filtered_df))
                (avg_length (rows filtered_df)) mpd).
Proof.
move=> /and4P [hty hco hts _] /top_row_nonempty [mpd tr].
by exists mpd; rewrite /frame_metrics /getitem hty hco hts.
Qed.

(** X4.  The default view shows everything.  For a non-empty export in
    which every timestamp parses to an instant whose date has a midnight
    (none on 1677-09-21) and none mixes an offset with times without zone,
    every record has an author, and some record has a content key and some
    a type key, the run with the preset [All time], type and author [All]
    and no search text gets through the metrics with a table of one row for
    each record, and the first metric is the number of records. *)
Theorem default_view_renders_everything data ws we :
  data <> [::] ->
  all (fun r => has_midnight (parsed r)) data ->
  ~~ mixed_zones data ->
  all (fun r => isSome (cell (raw_author r))) data ->
  has (fun r => present (raw_content r)) data ->
  has (fun r => present (raw_type r)) data ->
  exists st,
    [/\ dashboard data (Widgets AllTime ws we "All" "All" "")
        = Ok (Rendered (pmap normalise data) st),
        size (pmap normalise data) = size data
      & total_messages st = size data].
Proof.
move=> ne mid nmix au hco hty.
have ps : all (fun r => isSome (parsed r)) data.
  by apply: sub_all mid => r; rewrite /has_midnight; case: (parsed r).
have hts : has (fun r => present (raw_timestamp r)) data.
  case: data ne ps {mid nmix hty hco au} => // r data _ /= /andP [pr _].
  by move: pr; rewrite /parsed; case: (raw_timestamp r).
have hau : has (fun r => present (raw_author r)) data.
  case: data ne au {mid nmix hty hco ps hts} => // r data _ /= /andP [pr _].
  by move: pr; case: (raw_author r).
have nclock : ~~ has reads_clock data.
  rewrite -all_predC; apply: sub_all ps => r /=.
  by rewrite /parsed /reads_clock; case: (cell _) => //= s ->.
have tbl : pmap normalise data
           = [seq Row (parsed r) (cell (raw_author r)) (cell (raw_content r))
                      (Some (if cell (raw_type r) is Some y then y else "Default"))
             | r <- data].
  by rewrite pmap_normalise; congr map; apply/all_filterP.
have sz : size (pmap normalise data) = size data by rewrite tbl size_map.
have tne : pmap normalise data <> [::].
  by move=> e; move: sz; rewrite e => /esym /size0nil.
have tmid : all (fun m => has_midnight (timestamp m)) (pmap normalise data).
  by rewrite tbl all_map; apply: sub_all mid.
have aus : all (fun m => isSome (author m)) (pmap normalise data).
  by rewrite tbl all_map; apply: sub_all au.
pose fr := Frame (columns (DataFrame data)) (pmap normalise data).
have cols c : c \in all_columns -> c \in columns fr.
  rewrite !inE columns_DataFrame hts hau hco hty !andbT.
  by case/or4P => ->; rewrite ?orbT.
have [lo [hi [mm lo_in hi_in rng]]] := min_max_datesP tne (has_midnight_isSome tmid).
have sb : frame_sidebar fr (Widgets AllTime ws we "All" "All" "")
          = Ok (Spec lo hi "All" "All" "", size (days_between lo hi)).
  apply: (@frame_sidebar_ok fr _ lo hi) => //=.
  - by rewrite /has_columns /= !cols.
  - exact: dated_in_bounds lo_in.
  - exact: dated_in_bounds hi_in.
have ff : frame_filters fr (Spec lo hi "All" "All" "") = Ok fr.
  rewrite frame_filters_range ?cols //; congr (Ok (Frame _ _)).
  apply/all_filterP/allP => m /rng [d dm [ld dh]].
  by rewrite /in_range dm /= !(proj2 (Z.leb_le _ _)).
have [mpd fm] : exists mpd,
    frame_metrics fr
    = Ok (Stats (size (rows fr)) (count (fun m => type m == Some "Reply") (rows fr))
                (avg_length (rows fr)) mpd).
  by apply: frame_metrics_nonempty => //; rewrite /has_columns /= !cols.
eexists; split; [| exact: sz |].
  by rewrite /dashboard convert_to_df_ok //= -/fr /render sb /= frame_pipeline_unfold
             ff /= fm.
by rewrite /= sz.
Qed.

Lemma default_view_witness :
  exists st,
    [/\ dashboard two_records all_time = Ok (Rendered (pmap normalise two_records) st),
        size (pmap normalise two_records) = size two_records
      & total_messages st = size two_records].
Proof.
apply (@default_view_renders_everything two_records 0%Z 0%Z).
- discriminate.
- vm_compute; reflexivity.
- vm_compute; reflexivity.
- vm_compute; reflexivity.
- vm_compute; reflexivity.
- vm_compute; reflexivity.
Defined.

(** X5.  The presets that look back.  On a frame with all its columns and
    with rows that all have an author and a timestamp whose date has a
    midnight, and one of them a date from which the preset can reach back
    (not within the first 7, 30 or 90 days of the timestamp range), [Last 7
    days] (30, 90) ends the range at the latest date of the table and
    starts it 7 (30, 90) days earlier, so the caption counts 8 (31, 91)
    days; with no other filter the rows kept are those dated in the range,
    the latest message is among them, and the metrics are computed without
    fault. *)
Theorem last_days_keep_latest_message (df : frame (option Z)) p ws we :
  has_columns all_columns df ->
  rows df <> [::] ->
  all (fun m => has_midnight (timestamp m)) (rows df) ->
  all (fun m => isSome (author m)) (rows df) ->
  has (fun m => reaches_back (preset_days p) (timestamp m)) (rows df) ->
  p <> Custom -> p <> AllTime ->
  exists sp f st,
    [/\ frame_sidebar df (Widgets p ws we "All" "All" "")
        = Ok (sp, Z.to_nat (preset_days p + 1)),
        Some (end_date sp) \in dt_date (rows df)
        /\ (forall m, m \in rows df ->
              exists2 d, date (timestamp m) = Some d & (d <= end_date sp)%Z),
        (start_date sp = end_date sp - preset_days p)%Z,
        frame_pipeline df sp = Ok (Frame (columns df) f, st)
      & (forall m, (m \in f) = (m \in rows df) && in_range sp m)
        /\ (forall m, m \in rows df ->
              (forall m', m' \in rows df ->
                 later_first (timestamp m) (timestamp m')) ->
              m \in f)].
Proof.
move=> /and5P [hts hau hco hty _] ne mid au back nc na.
have [lo [hi [mm lo_in hi_in bnd]]] := min_max_datesP ne (has_midnight_isSome mid).
have N0 : (0 <= preset_days p)%Z by case: p {nc na back}.
have bhi : day_in_bounds hi := dated_in_bounds mid hi_in.
have bs : day_in_bounds (hi - preset_days p).
  case/hasP: back => m0 hm0; rewrite /reaches_back.
  case: (bnd _ hm0) => d0; rewrite /date; case: (timestamp m0) => //= t0 [<-] [_ dh] b0.
  by apply: day_in_bounds_between b0 bhi _; lia.
pose sp := Spec (hi - preset_days p) hi "All" "All" "".
pose f := [seq m <- rows df | in_range sp m].
have sb : frame_sidebar df (Widgets p ws we "All" "All" "")
          = Ok (sp, Z.to_nat (preset_days p + 1)).
  have -> : Z.to_nat (preset_days p + 1)
            = size (days_between (hi - preset_days p) hi).
    by rewrite size_days_between; congr Z.to_nat; lia.
  apply: (@frame_sidebar_ok df _ lo hi) => //.
  - by rewrite /has_columns /= hts hau.
  - by rewrite /chosen_range /=; case: p nc na {N0 bs sp f back}.
have ff : frame_filters df sp = Ok (Frame (columns df) f).
  by rewrite frame_filters_range.
have dated m : m \in rows df -> date (timestamp m) = Some hi -> m \in f.
  move=> hm dm; rewrite mem_filter hm andbT /in_range dm /=.
  by rewrite !(proj2 (Z.leb_le _ _)) //; lia.
have fne : f <> [::].
  case/mapP: hi_in => m hm dm.
  by have := dated m hm (esym dm); case: (f).
have [mpd fm] : exists mpd,
    frame_metrics (Frame (columns df) f)
    = Ok (Stats (size f) (count (fun m => type m == Some "Reply") f)
                (avg_length f) mpd).
  by apply: (@frame_metrics_nonempty (Frame _ _)) => //; rewrite /has_columns /= hty hco hts.
exists sp, f; eexists; split=> //.
- split=> // m /bnd [d dm [_ dh]]; by exists d.
- by rewrite frame_pipeline_unfold ff /= fm.
- split=> [m | m hm latest]; first by rewrite mem_filter andbC.
  apply: dated => //.
  case/mapP: hi_in => mx hmx dmx.
  case: (bnd _ hm) => d dm [_ dh]; rewrite dm; congr Some.
  have := latest _ hmx; move: dm dmx dh; rewrite /date.
  case: (timestamp m) => //= t [<-]; case: (timestamp mx) => //= tx [->] dh.
  by move/Z.leb_le/date_of_ns_mono; lia.
Qed.

Lemma last_days_witness :
  exists sp f st,
    [/\ frame_sidebar (Frame all_columns two_rows) last_week
        = Ok (sp, Z.to_nat (preset_days Last7days + 1)),
        Some (end_date sp) \in dt_date (rows (Frame all_columns two_rows))
        /\ (forall m, m \in rows (Frame all_columns two_rows) ->
              exists2 d, date (timestamp m) = Some d & (d <= end_date sp)%Z),
        (start_date sp = end_date sp - preset_days Last7days)%Z,
        frame_pipeline (Frame all_columns two_rows) sp
        = Ok (Frame (columns (Frame all_columns two_rows)) f, st)
      & (forall m, (m \in f)
                   = (m \in rows (Frame all_columns two_rows)) && in_range sp m)
        /\ (forall m, m \in rows (Frame all_columns two_rows) ->
              (forall m', m' \in rows (Frame all_columns two_rows) ->
                 later_first (timestamp m) (timestamp m')) ->
              m \in f)].
Proof.
apply (@last_days_keep_latest_message (Frame all_columns two_rows)
         Last7days 0%Z 0%Z).
- vm_compute; reflexivity.
- discriminate.
- vm_compute; reflexivity.
- vm_compute; reflexivity.
- vm_compute; reflexivity.
- discriminate.
- discriminate.
Defined.



(** X7.  An inverted custom range ends the run.  On a frame with all its
    columns, whose rows all have an author and a timestamp whose date has a
    midnight, with the custom pickers set to a start after the end (both
    among the dates the pickers offer) and a search text without
    metacharacters, the sidebar reports a range of 0 days, the filtered
    table is empty, and the run ends at the fourth metric with
    ZeroDivisionError. *)
Theorem inverted_custom_range_faults (df : frame (option Z)) w :
  has_columns all_columns df ->
  rows df <> [::] ->
  all (fun m => has_midnight (timestamp m)) (rows df) ->
  all (fun m => isSome (author m)) (rows df) ->
  w_preset w = Custom -> (w_end w < w_start w)%Z ->
  has (fun m => if date (timestamp m) is Some d then (d <=? w_end w)%Z
                else false) (rows df) ->
  has (fun m => if date (timestamp m) is Some d then (w_start w <=? d)%Z
                else false) (rows df) ->
  w_type w \in message_types ->
  (w_author w == "All") || (Some (w_author w) \in [seq author m | m <- rows df]) ->
  is_plain (w_search w) ->
  exists sp,
    [/\ frame_sidebar df w = Ok (sp, 0),
        frame_filters df sp = Ok (Frame (columns df) [::]),
        frame_pipeline df sp = Raise ZeroDivisionError
      & render df w = Raise ZeroDivisionError].
Proof.
move=> cols ne mid au cu inv early late ty ao pl.
have /and5P [hts hau hco hty _] := cols.
have [lo [hi [mm lo_in hi_in bnd]]] := min_max_datesP ne (has_midnight_isSome mid).
have blo : day_in_bounds lo := dated_in_bounds mid lo_in.
have bhi : day_in_bounds hi := dated_in_bounds mid hi_in.
have lo_e : (lo <= w_end w)%Z.
  case/hasP: early => m hm; case: (bnd _ hm) => d -> [ld _] /Z.leb_le.
  by lia.
have s_hi : (w_start w <= hi)%Z.
  case/hasP: late => m hm; case: (bnd _ hm) => d -> [_ dh] /Z.leb_le.
  by lia.
pose sp := Spec (w_start w) (w_end w) (w_type w) (w_author w) (w_search w).
have sb : frame_sidebar df w = Ok (sp, 0).
  have -> : 0 = size (days_between (w_start w) (w_end w)).
    by rewrite size_days_between; lia.
  apply: (@frame_sidebar_ok df _ lo hi) => //.
  - by rewrite /has_columns /= hts hau.
  - rewrite /chosen_range cu.
    by rewrite !(proj2 (Z.leb_le _ _)) //; lia.
  - by apply: day_in_bounds_between blo bhi _; lia.
  - by apply: day_in_bounds_between blo bhi _; lia.
have af : apply_filters (rows df) sp = Ok [::].
  rewrite apply_filtersE /search_pattern re_compile_plain //=.
  by case: (_ != _) => /=; rewrite inverted_range_keeps_nothing.
have ff : frame_filters df sp = Ok (Frame (columns df) [::]).
  by rewrite frame_filters_unfold /getitem hts hty hau hco af /= !if_same.
have fp : frame_pipeline df sp = Raise ZeroDivisionError.
  by rewrite frame_pipeline_unfold ff /= /frame_metrics /getitem /= hty hco hts.
by exists sp; split=> //; rewrite /render sb /= fp.
Qed.

Lemma inverted_custom_range_witness :
  exists sp,
    [/\ frame_sidebar (Frame all_columns two_rows) custom_inverted = Ok (sp, 0),
        frame_filters (Frame all_columns two_rows) sp
        = Ok (Frame (columns (Frame all_columns two_rows)) [::]),
        frame_pipeline (Frame all_columns two_rows) sp = Raise ZeroDivisionError
      & render (Frame all_columns two_rows) custom_inverted
        = Raise ZeroDivisionError].
Proof.
apply (@inverted_custom_range_faults (Frame all_columns two_rows) custom_inverted).
- vm_compute; reflexivity.
- discriminate.
- vm_compute; reflexivity.
- vm_compute; reflexivity.
- reflexivity.
- vm_compute; reflexivity.
- vm_compute; reflexivity.
- vm_compute; reflexivity.
- vm_compute; reflexivity.
- vm_compute; reflexivity.
- vm_compute; reflexivity.
Defined.

(** ** The metrics and the filter *)

(** X8.  On a filtered frame with its type, content and timestamp columns
    the metrics fault on the empty table and on no other: for a non-empty
    one the row is computed, its first metric is the number of rows, the
    second the number of rows of type [Reply], the third the rounded mean
    length.  On a frame without content column the third metric raises
    KeyError, whatever the rows. *)
Theorem metrics_fault_only_on_empty (filtered_df : frame (option Z)) :
  has_columns [:: "type"; "timestamp"] filtered_df ->
  let f := rows filtered_df in
  if "content" \in columns filtered_df then
    if f is [::] then frame_metrics filtered_df = Raise ZeroDivisionError
    else exists mpd,
           frame_metrics filtered_df
           = Ok (Stats (size f) (count (fun m => type m == Some "Reply") f)
                       (avg_length f) mpd)
  else frame_metrics filtered_df = Raise (KeyError "content").
Proof.
move=> /and3P [hty hts _] /=.
case hco: ("content" \in _); last by rewrite /frame_metrics /getitem hty hco.
case E: (rows filtered_df) => [|m f].
  by rewrite /frame_metrics /getitem hty hco hts E.
rewrite -E; apply: frame_metrics_nonempty; last by rewrite E.
by rewrite /has_columns /= hty hco hts.
Qed.

Lemma metrics_fault_witness :
  let f := rows (Frame all_columns [:: row2]) in
  if "content" \in columns (Frame all_columns [:: row2]) then
    if f is [::]
    then frame_metrics (Frame all_columns [:: row2]) = Raise ZeroDivisionError
    else exists mpd,
           frame_metrics (Frame all_columns [:: row2])
           = Ok (Stats (size f) (count (fun m => type m == Some "Reply") f)
                       (avg_length f) mpd)
  else frame_metrics (Frame all_columns [:: row2]) = Raise (KeyError "content").
Proof.
apply (@metrics_fault_only_on_empty (Frame all_columns [:: row2])).
vm_compute; reflexivity.
Defined.

(** X9.  The type filter and the reply count.  Whatever the filter, the
    first metric is the size of the filtered table; with the type [Reply]
    selected the reply count equals it, and with any other type than [All]
    and [Reply] selected the reply count is 0. *)
Theorem type_filter_fixes_reply_count df sp f st :
  pipeline df sp = Ok (f, st) ->
  [/\ total_messages st = size f,
      selected_type sp = "Reply" -> reply_count st = total_messages st
    & selected_type sp <> "All" -> selected_type sp <> "Reply" ->
      reply_count st = 0].
Proof.
rewrite /pipeline apply_filtersE.
case: (search_pattern sp) => //= o.
case E: (top_row _) => [st'|e|] //= [<- <-].
move: E; rewrite /top_row; case: (messages_per_day _) => //= mpd [<-] /=.
rewrite replies_count; split=> // [ty | nall nrep].
  rewrite count_filter; apply/eqP; rewrite -size_filter; apply/eqP.
  congr size; apply: eq_in_filter => m _ /=.
  rewrite /selects /type_ok ty /=.
  by case: (type m == _) => //=; rewrite andbF.
rewrite count_filter (@eq_count _ _ pred0) ?count_pred0 // => m /=.
rewrite /selects /type_ok.
case: (selected_type sp =P "All") => [al | _] /=; first by case: nall.
case: (type m =P Some (selected_type sp)) => [-> | _]; last by rewrite !andbF.
by case: eqP => [[rs]|_] //; case: nrep.
Qed.

Lemma type_filter_witness :
  [/\ total_messages (Stats 1 1 11.0 1.0) = size [:: row2],
      selected_type reply_spec = "Reply" ->
      reply_count (Stats 1 1 11.0 1.0) = total_messages (Stats 1 1 11.0 1.0)
    & selected_type reply_spec <> "All" -> selected_type reply_spec <> "Reply" ->
      reply_count (Stats 1 1 11.0 1.0) = 0].
Proof.
apply (@type_filter_fixes_reply_count two_rows reply_spec [:: row2]
         (Stats 1 1 11.0 1.0)).
vm_compute; reflexivity.
Defined.

Lemma filter_subpred (T : Type) (p q : pred T) (s : seq T) :
  (forall x, p x -> q x) ->
  [seq x <- s | p x] = [seq x <- [seq x <- s | q x] | p x].
Proof.
move=> pq; rewrite -filter_predI; apply: eq_filter => x /=.
by case px: (p x) => //=; rewrite pq.
Qed.

(** X10.  Widening the date range never loses a row: with an earlier start
    and a later end, and the other filters unchanged, the filtered table of
    the narrower range is a subsequence of that of the wider one. *)
Theorem wider_range_keeps_more df s e s' e' t a q f :
  (s' <= s)%Z -> (e <= e')%Z ->
  apply_filters df (Spec s e t a q) = Ok f ->
  exists2 f', apply_filters df (Spec s' e' t a q) = Ok f' & subseq f f'.
Proof.
move=> ss ee; rewrite !apply_filtersE /search_pattern /=.
case: (if q != "" then _ else _) => //= o [<-].
exists [seq m <- df | selects (Spec s' e' t a q) o m]; first by [].
rewrite [X in subseq X _](@filter_subpred _ _ (selects (Spec s' e' t a q) o));
  last exact: filter_subseq.
move=> m; rewrite /selects /in_range /type_ok /author_ok /=.
case: (date _) => //= d /andP [/andP [/Z.leb_le sd /Z.leb_le de] ->].
by rewrite !(proj2 (Z.leb_le _ _)) //; lia.
Qed.

Lemma wider_range_witness :
  exists2 f', apply_filters two_rows (Spec jan1 jan2 "All" "All" "") = Ok f'
            & subseq [:: row2] f'.
Proof.
apply (@wider_range_keeps_more two_rows jan2 jan2 jan1 jan2 "All" "All" ""
         [:: row2]).
- vm_compute; discriminate.
- lia.
- vm_compute; reflexivity.
Defined.

(** X11.  Filters combine in either order: filtering a filtered table with
    a second FilterSpec gives the rows that pass both, and the same table
    as filtering with the second FilterSpec first. *)
Theorem filters_commute df sp1 sp2 f1 f12 :
  apply_filters df sp1 = Ok f1 -> apply_filters f1 sp2 = Ok f12 ->
  exists f2,
    [/\ apply_filters df sp2 = Ok f2, apply_filters f2 sp1 = Ok f12
      & forall m, (m \in f12) = (m \in f1) && (m \in f2)].
Proof.
rewrite !apply_filtersE.
case E1: (search_pattern sp1) => [o1|e|] //= [<-].
case E2: (search_pattern sp2) => [o2|e|] //= [<-].
exists [seq m <- df | selects sp2 o2 m]; split=> //.
  rewrite apply_filtersE E1 /= -!filter_predI; congr Ok.
  by apply: eq_filter => m /=; rewrite andbC.
move=> m; rewrite !mem_filter.
by case: (selects sp2 o2 m); case: (selects sp1 o1 m); case: (m \in df).
Qed.

Lemma filters_commute_witness :
  exists f2,
    [/\ apply_filters two_rows author_b_spec = Ok f2,
        apply_filters f2 reply_spec = Ok [:: row2]
      & forall m, (m \in [:: row2]) = (m \in [:: row2]) && (m \in f2)].
Proof.
apply (@filters_commute two_rows reply_spec author_b_spec [:: row2] [:: row2]).
- vm_compute; reflexivity.
- vm_compute; reflexivity.
Defined.

Lemma prefix_ci_tolower (p p' s : seq ascii) :
  map tolower p = map tolower p' -> prefix_ci p s = prefix_ci p' s.
Proof.
by elim: p p' s => [|c p IH] [|c' p'] [|d s] //= [-> /IH ->].
Qed.

Lemma infix_ci_tolower (p p' s : seq ascii) :
  map tolower p = map tolower p' -> infix_ci p s = infix_ci p' s.
Proof.
move=> pp; elim: s => [|d s IH] /=; rewrite (prefix_ci_tolower _ pp) //.
by rewrite IH.
Qed.

Lemma chars_nil q : chars q = [::] -> q = "".
Proof. by case: q. Qed.

(** X12.  The case of the search text does not matter: two search texts
    without metacharacters that differ in case only give the same filtered
    table. *)
Theorem search_ignores_case_of_term df s e t a q q' :
  is_plain q -> is_plain q' ->
  map tolower (chars q) = map tolower (chars q') ->
  apply_filters df (Spec s e t a q) = apply_filters df (Spec s e t a q').
Proof.
move=> pq pq' qq; rewrite !apply_filtersE /search_pattern /=.
case: (q =P "") => [q0 | /eqP nq] /=.
  suff -> : q' = "" by rewrite q0.
  by apply: chars_nil; move: qq; rewrite q0 /=; case: (chars q').
have -> /= : q' != "".
  apply: contraNneq nq => q0; apply/eqP/chars_nil.
  by move: qq; rewrite q0; case: (chars q).
rewrite !re_compile_plain //=; congr Ok; apply: eq_filter => m.
rewrite /selects /content_matches /=; case: (content m) => [c|] //.
by rewrite !re_search_lits (infix_ci_tolower _ qq).
Qed.

Lemma search_ignores_case_witness :
  apply_filters two_rows (Spec jan1 jan2 "All" "All" "HELLO")
  = apply_filters two_rows (Spec jan1 jan2 "All" "All" "hello").
Proof.
apply (@search_ignores_case_of_term two_rows jan1 jan2 "All" "All"
         "HELLO" "hello").
- vm_compute; reflexivity.
- vm_compute; reflexivity.
- vm_compute; reflexivity.
Defined.

Lemma re_parse_raise stack cur qf p e :
  re_parse stack cur qf p = Raise e -> e = ReError.
Proof.
have [n] := ubnP (size p); elim: n p stack cur qf => // n IH [|c p] stack cur qf /=.
  by move=> _; case: stack => [|g st] // [].
rewrite ltnS => sz.
have IH' := fun st cu q => @IH p st cu q sz.
case: (classify c) => //; try exact: IH'.
- case: (items cur) => [|r rs]; first by case.
  by case: qf => //; exact: IH'.
- case: (items cur) => [|r rs]; first by case.
  by case: qf => //; exact: IH'.
- case: (items cur) => [|r rs]; first by case.
  by case: qf => //; exact: IH'.
- by case: p sz IH' => [|[[] [] [] [] [] [] [] []] p] sz IH' //;
     case: (max_nesting <= _) => //; exact: IH'.
- by case: stack => [|g st]; [case | exact: IH'].
- case: p sz {IH'} => [|d p] /= sz; first by case.
  by case: (_ || _) => //; apply: IH; exact: ltnW.
Qed.

Lemma re_compile_raise pat e : re_compile pat = Raise e -> e = ReError.
Proof. exact: re_parse_raise. Qed.

Section Raising.

Variable pattern : Type.
Variable compile : string -> result pattern.
Variable search : pattern -> seq ascii -> bool.

(** The pattern is compiled before any row is looked at: when the filter
    raises on a table, it is the error of the compilation, raised on every
    table. *)
Lemma apply_filters_by_raise df sp e :
  apply_filters_by compile search df sp = Raise e ->
  [/\ search_term sp <> "", compile (search_term sp) = Raise e
    & forall df', apply_filters_by compile search df' sp = Raise e].
Proof.
rewrite apply_filters_byE /search_pattern_by.
case: eqP => //= nq.
case E: (compile _) => [r|e'|] //= [<-]; split=> // df'.
by rewrite apply_filters_byE /search_pattern_by; case: eqP => //= _; rewrite E.
Qed.

(** The filter on a frame: KeyError for the first column that is needed and
    missing, else the filter on the rows. *)
Lemma frame_filters_byE (df : frame (option Z)) sp :
  frame_filters_by compile search df sp
  = if [seq c <- needed_columns sp | c \notin columns df] is c :: _
    then Raise (KeyError c)
    else let* f := apply_filters_by compile search (rows df) sp in
         Ok (Frame (columns df) f).
Proof.
rewrite /frame_filters_by /getitem /needed_columns /=.
case: ("timestamp" \in _) => //=.
case: (selected_type sp != "All") => /=; first case: ("type" \in _) => //=;
  (case: (selected_author sp != "All") => /=; first case: ("author" \in _) => //=);
  by case: (search_term sp != "") => /=; first case: ("content" \in _).
Qed.

End Raising.

(** X13.  Whether filtering raises, and what, is a matter of the column
    labels and the search text, never of the rows: it raises KeyError for
    a column that a test needs and the frame lacks, or else the error that
    [re.compile] raises on the search text, which is then not empty; and
    the same on every frame with these columns.  This holds whatever
    Python's [re] is. *)
Theorem filtering_raises_whatever_the_rows (pattern : Type)
    (compile : string -> result pattern)
    (search : pattern -> seq ascii -> bool)
    (df : frame (option Z)) sp e :
  frame_filters_by compile search df sp = Raise e ->
  ((search_term sp <> "" /\ compile (search_term sp) = Raise e)
   \/ exists2 label, e = KeyError label & label \notin columns df)
  /\ forall table,
       frame_filters_by compile search (Frame (columns df) table) sp = Raise e.
Proof.
have same table :
    frame_filters_by compile search (Frame (columns df) table) sp
    = if [seq c <- needed_columns sp | c \notin columns df] is c :: _
      then Raise (KeyError c)
      else let* f := apply_filters_by compile search table sp in
           Ok (Frame (columns df) f).
  by rewrite frame_filters_byE.
rewrite frame_filters_byE.
case E: [seq c <- needed_columns sp | c \notin columns df] => [|c cs].
  case af: (apply_filters_by _ _ _ _) => [f|e'|] //= [<-].
  have [nq ce raises] := apply_filters_by_raise af.
  by split=> [|table]; [left | rewrite same E raises].
case=> <-; split=> [|table]; last by rewrite same E.
right; exists c => //.
have: c \in [seq c <- needed_columns sp | c \notin columns df] by rewrite E inE eqxx.
by rewrite mem_filter => /andP [].
Qed.

Lemma filtering_raises_witness :
  ((search_term inverted_bad_spec <> ""
    /\ re_compile (search_term inverted_bad_spec) = Raise ReError)
   \/ exists2 label, ReError = KeyError label
                   & label \notin columns (Frame all_columns two_rows))
  /\ forall table,
       frame_filters (Frame (columns (Frame all_columns two_rows)) table)
         inverted_bad_spec = Raise ReError.
Proof.
apply (@filtering_raises_whatever_the_rows regex re_compile re_search
         (Frame all_columns two_rows) inverted_bad_spec ReError).
vm_compute; reflexivity.
Defined.

(** X14.  The caption under the table: the number of filtered messages never
    exceeds the number of messages, and the two are equal only when no row
    was filtered out. *)
Theorem filtered_count_is_at_most_total df sp f :
  apply_filters df sp = Ok f ->
  size f <= size df /\ (size f = size df -> f = df).
Proof.
rewrite apply_filtersE; case: (search_pattern sp) => //= o [<-].
have sub := filter_subseq (selects sp o) df.
have [le eq] := size_subseq_leqif sub; split=> // /eqP.
by rewrite eq => /eqP.
Qed.

Lemma filtered_count_witness :
  size [:: row2] <= size two_rows
  /\ (size [:: row2] = size two_rows -> [:: row2] = two_rows).
Proof.
apply (@filtered_count_is_at_most_total two_rows reply_spec [:: row2]).
vm_compute; reflexivity.
Defined.

(** ** The charts and the table *)

Lemma sumn_mapD (A : Type) (a b : A -> nat) (u : seq A) :
  sumn [seq a x + b x | x <- u]
  = sumn [seq a x | x <- u] + sumn [seq b x | x <- u].
Proof. by elim: u => //= x u ->; rewrite addnACA. Qed.

Section Counting.

Variable T : eqType.
Implicit Types (s u : seq T).

(** Counting each value of a duplicate-free list that covers [s] counts
    every element of [s] once. *)
Lemma sumn_count_mem u s :
  uniq u -> {subset s <= u} -> sumn [seq count_mem x s | x <- u] = size s.
Proof.
move=> uu; elim: s => [|y s IH] sub.
  by elim: u {uu sub} => //= x u ->.
have yu : y \in u by apply: sub; rewrite inE eqxx.
have {}IH : sumn [seq count_mem x s | x <- u] = size s.
  by apply: IH => x xs; apply: sub; rewrite inE xs orbT.
rewrite [RHS]/= -IH -add1n.
rewrite (@eq_map _ _ _ (fun x => (y == x : nat) + count_mem x s)) //.
rewrite sumn_mapD sumn_count; congr (_ + _).
by rewrite (@eq_count _ _ (pred1 y)) ?count_uniq_mem ?yu // => x /=.
Qed.

End Counting.

Lemma zleb_total : total Z.leb.
Proof. by move=> a b; apply/orP; case: (Z.leb_spec a b) => ?; [left | right; apply/Z.leb_le; lia]. Qed.

Lemma zleb_trans : transitive Z.leb.
Proof. by move=> b a c /Z.leb_le ? /Z.leb_le ?; apply/Z.leb_le; lia. Qed.

Lemma zleb_antisym : antisymmetric Z.leb.
Proof. by move=> a b /andP [/Z.leb_le ? /Z.leb_le ?]; lia. Qed.

Lemma hour_of_ns_bounds t : (0 <= hour_of_ns t <= 23)%Z.
Proof.
rewrite /hour_of_ns /ns_per_day /ns_per_sec.
have := Z.mod_pos_bound t (86400 * 1000000000) erefl.
move: (t mod _)%Z => r [r0 r1]; split; first by apply: Z.div_pos.
suff : (r / (3600 * 1000000000) < 24)%Z by lia.
by apply: Z.div_lt_upper_bound; lia.
Qed.

Lemma count_mem_pmap (T : eqType) (col : seq (option T)) v :
  count_mem v (pmap id col) = count_mem (Some v) col.
Proof. by elim: col => [|[x|] col IH] //=; rewrite IH. Qed.

Lemma size_pmap_id (T : Type) (col : seq (option T)) :
  size (pmap id col) = count isSome col.
Proof. by rewrite size_pmap. Qed.

Lemma counts_by_indexP (col : seq (option Z)) :
  let h := counts_by_index col in
  [/\ sorted Z.leb [seq p.1 | p <- h], uniq [seq p.1 | p <- h],
      forall v, (v \in [seq p.1 | p <- h]) = (Some v \in col),
      all (fun p => (p.2 == count_mem (Some p.1) col) && (0 < p.2)) h
    & sumn [seq p.2 | p <- h] = count isSome col].
Proof.
rewrite /counts_by_index /=; set vals := pmap id col.
have keys : [seq p.1 | p <- [seq (v, count_mem v vals) | v <- sort Z.leb (undup vals)]]
            = sort Z.leb (undup vals).
  by rewrite -map_comp map_id_in.
rewrite keys; split.
- exact: (sort_sorted zleb_total).
- by rewrite sort_uniq undup_uniq.
- by move=> v; rewrite mem_sort mem_undup mem_pmap map_id.
- apply/allP => p /mapP [v]; rewrite mem_sort mem_undup => hv -> /=.
  by rewrite count_mem_pmap eqxx -count_mem_pmap -has_count has_pred1.
- rewrite -map_comp -size_pmap_id -/vals.
  rewrite (@eq_map _ _ _ (fun v => count_mem v vals)) //.
  rewrite (perm_sumn (perm_map _ (introT permPl (perm_sort _ _)))).
  by apply: sumn_count_mem; rewrite ?undup_uniq // => x; rewrite mem_undup.
Qed.

(** X15.  The hourly chart: the hours listed are distinct, in increasing
    order and between 0 and 23; each bar is as high as the number of
    messages sent in that hour (UTC) and at least 1; the bars add up to the
    number of rows with a timestamp. *)
Theorem hourly_activity_adds_up (f : seq message) :
  let h := hourly_activity f in
  [/\ sorted Z.leb [seq p.1 | p <- h] /\ uniq [seq p.1 | p <- h],
      all (fun p => (0 <=? p.1)%Z && (p.1 <=? 23)%Z && (0 < p.2)) h,
      all (fun p => p.2 == count (fun m => omap hour_of_ns (timestamp m)
                                            == Some p.1) f) h
    & sumn [seq p.2 | p <- h] = count (fun m => isSome (timestamp m)) f].
Proof.
rewrite /hourly_activity.
have [srt unq mem cnt tot] := counts_by_indexP [seq omap hour_of_ns (timestamp m) | m <- f].
split=> //.
- apply/allP => p hp; move/allP: cnt => /(_ p hp) /andP [_ ->]; rewrite andbT.
  have: p.1 \in [seq p.1 | p <- counts_by_index [seq omap hour_of_ns (timestamp m) | m <- f]].
    exact: map_f.
  rewrite mem => /mapP [m _]; case: (timestamp m) => //= t [->].
  have [h0 h23] := hour_of_ns_bounds t.
  by rewrite !(proj2 (Z.leb_le _ _)).
- apply/allP => p hp; move/allP: cnt => /(_ p hp) /andP [/eqP -> _].
  by rewrite count_map; apply/eqP/eq_count => m /=.
- by rewrite tot count_map; apply: eq_count => m /=; case: (timestamp m).
Qed.

Lemma sleb_total : total String.leb.
Proof. by move=> a b; apply/orP; exact: String.leb_total. Qed.

Lemma dated_types_size (f : seq message) :
  normalized f -> size (dated_types f) = size f.
Proof.
rewrite /dated_types /normalized; elim: f => [|m f IH] //= /andP [/andP []].
by case: (timestamp m) => //= t _; case: (type m) => //= y _ /IH ->.
Qed.

Lemma dated_types_count (f : seq message) d :
  count_mem d [seq c.1 | c <- dated_types f]
  = count (fun m => (date (timestamp m) == Some d) && isSome (type m)) f.
Proof.
rewrite /dated_types; elim: f => [|m f IH] //=.
case: (timestamp m) => [t|] /=; last by rewrite IH.
by case: (type m) => [y|] /=; rewrite IH ?andbF ?andbT.
Qed.

(** X16.  The timeline: one row for each date, the dates distinct and in
    increasing order; the counts of a row add up to the number of typed
    messages of that date, which is at least 1; on a normalized table all
    the counts add up to the number of rows. *)
Theorem timeline_rows_add_up (f : seq message) :
  let tl := timeline_data f in
  [/\ sorted Z.leb [seq r.1 | r <- tl] /\ uniq [seq r.1 | r <- tl],
      all (fun r => sumn [seq c.2 | c <- r.2]
                    == count (fun m => (date (timestamp m) == Some r.1)
                                       && isSome (type m)) f) tl,
      all (fun r => 0 < sumn [seq c.2 | c <- r.2]) tl
    & normalized f -> sumn [seq sumn [seq c.2 | c <- r.2] | r <- tl] = size f].
Proof.
rewrite /timeline_data /=; set cells := dated_types f.
set dates := sort Z.leb _; set types := sort String.leb _.
have udates : uniq dates by rewrite sort_uniq undup_uniq.
have utypes : uniq types by rewrite sort_uniq undup_uniq.
have rowsum d :
    sumn [seq c.2 | c <- [seq (t, count_mem (d, t) cells) | t <- types]]
    = count_mem d [seq c.1 | c <- cells].
  rewrite -map_comp count_map.
  have -> : count (preim fst (pred1 d)) cells
            = size [seq c.2 | c <- cells & c.1 == d].
    by rewrite size_map size_filter.
  have sub : {subset [seq c.2 | c <- cells & c.1 == d] <= types}.
    move=> t /mapP [c]; rewrite mem_filter => /andP [_ hc] ->.
    by rewrite mem_sort mem_undup map_f.
  rewrite -(sumn_count_mem utypes sub); congr sumn; apply: eq_map => t /=.
  rewrite count_map count_filter; apply: eq_count => -[d' t'] /=.
  by rewrite xpair_eqE andbC.
have keys : [seq r.1 | r <- [seq (d, [seq (t, count_mem (d, t) cells) | t <- types]) | d <- dates]]
            = dates.
  by rewrite -map_comp map_id_in.
rewrite keys; split.
- by split=> //; exact: (sort_sorted zleb_total).
- by apply/allP => r /mapP [d _ ->] /=; rewrite rowsum dated_types_count.
- apply/allP => r /mapP [d hd ->] /=; rewrite rowsum -has_count has_pred1.
  by move: hd; rewrite mem_sort mem_undup.
- move=> nf; rewrite -map_comp -(dated_types_size nf) -/cells.
  rewrite (@eq_map _ _ _ (fun d => count_mem d [seq c.1 | c <- cells])) //.
  rewrite -(size_map fst cells).
  apply: sumn_count_mem => // d; by rewrite mem_sort mem_undup.
Qed.

Section ValueCounts.

Variable T : eqType.
Implicit Types (col : seq (option T)) (vc : seq (T * nat)).

Lemma by_count_total : total (@by_count T).
Proof. by move=> p q; rewrite /by_count leq_total. Qed.

Lemma by_count_trans : transitive (@by_count T).
Proof. by move=> q p r; rewrite /by_count => qp rq; exact: leq_trans rq qp. Qed.

(** There is always a result that passes the test. *)
Lemma value_counts_exists col : is_value_counts col (value_counts_by_sort col).
Proof.
rewrite /is_value_counts /value_counts_by_sort; apply/and3P; split.
- rewrite (perm_trans (perm_map _ (introT permPl (perm_sort _ _)))) //.
  by rewrite -map_comp map_id_in.
- rewrite all_sort; apply/allP => p /mapP [x _ ->] /=.
  by [].
- exact: (sort_sorted by_count_total).
Qed.

Lemma value_counts_keys col vc :
  is_value_counts col vc ->
  uniq [seq p.1 | p <- vc]
  /\ (forall x, (x \in [seq p.1 | p <- vc]) = (Some x \in col)).
Proof.
case/and3P => pk _ _; split; first by rewrite (perm_uniq pk) undup_uniq.
by move=> x; rewrite (perm_mem pk) mem_undup mem_pmap map_id.
Qed.

Lemma value_counts_entry col vc p :
  is_value_counts col vc -> p \in vc ->
  p.2 = count_mem (Some p.1) col /\ 0 < p.2.
Proof.
move=> ok hp; have [_ mem] := value_counts_keys ok.
case/and3P: ok => _ /allP /(_ p hp) /eqP -> _.
rewrite count_mem_pmap; split=> //.
by rewrite -has_count has_pred1 -mem map_f.
Qed.

End ValueCounts.

Lemma value_counts_total (T : eqType) (col : seq (option T)) vc :
  is_value_counts col vc -> sumn [seq p.2 | p <- vc] = count isSome col.
Proof.
move=> ok; have [unq mem] := value_counts_keys ok.
rewrite -size_pmap_id.
have -> : [seq p.2 | p <- vc]
          = [seq count_mem x (pmap id col) | x <- [seq p.1 | p <- vc]].
  rewrite -map_comp; apply/eq_in_map => p hp /=.
  by case/and3P: ok => _ /allP /(_ p hp) /eqP.
apply: sumn_count_mem => // x hx.
by rewrite mem -[col]map_id -mem_pmap.
Qed.

(** X17.  The bars of the type chart.  Any result of [value_counts] on the
    type column has one bar for each type present, none twice, each as
    high as the number of rows of that type and at least 1; on a normalized
    table the bars add up to the number of rows. *)
Theorem type_counts_add_up (f : seq message) vc :
  is_value_counts [seq type m | m <- f] vc ->
  [/\ uniq [seq p.1 | p <- vc],
      forall t, (t \in [seq p.1 | p <- vc]) = has (fun m => type m == Some t) f,
      forall p, p \in vc ->
        p.2 = count (fun m => type m == Some p.1) f /\ 0 < p.2
    & normalized f -> sumn [seq p.2 | p <- vc] = size f].
Proof.
move=> ok; have [unq mem] := value_counts_keys ok; split=> //.
- move=> t; rewrite mem; apply/mapP/hasP => [[m hm ->] | [m hm /eqP tm]].
    by exists m.
  by exists m.
- by move=> p hp; have := value_counts_entry ok hp; rewrite count_map.
- move=> nf; rewrite (value_counts_total ok) count_map.
  apply/eqP; rewrite -all_count; apply: sub_all nf => m /=.
  by case/andP.
Qed.

Lemma type_counts_witness :
  [/\ uniq [seq p.1 | p <- [:: ("Default", 1); ("Reply", 1)]],
      forall t, (t \in [seq p.1 | p <- [:: ("Default", 1); ("Reply", 1)]])
                = has (fun m => type m == Some t) two_rows,
      forall p, p \in [:: ("Default", 1); ("Reply", 1)] ->
        p.2 = count (fun m => type m == Some p.1) two_rows /\ 0 < p.2
    & normalized two_rows
      -> sumn [seq p.2 | p <- [:: ("Default", 1); ("Reply", 1)]] = size two_rows].
Proof.
apply (@type_counts_add_up two_rows [:: ("Default", 1); ("Reply", 1)]).
vm_compute; reflexivity.
Defined.

(** X18.  The ten most active authors.  Whatever order [value_counts] gives
    to equal counts, the first ten entries are min(10, number of authors)
    many, each with the number of messages of its author, and no author
    left out has more messages than an author listed. *)
Theorem top_authors_are_the_most_active (f : seq message) vc :
  is_value_counts [seq author m | m <- f] vc ->
  let author_counts := head 10 vc in
  [/\ size author_counts
      = minn 10 (size (undup (pmap id [seq author m | m <- f]))),
      forall p, p \in author_counts ->
        p.2 = count (fun m => author m == Some p.1) f /\ 0 < p.2
    & forall p a, p \in author_counts ->
        a \notin [seq q.1 | q <- author_counts] ->
        count (fun m => author m == Some a) f <= p.2].
Proof.
move=> ok /=; rewrite /head.
have cntE a : count_mem (Some a) [seq author m | m <- f]
              = count (fun m => author m == Some a) f.
  by rewrite count_map.
have [unq mem] := value_counts_keys ok.
split.
- rewrite size_take_min; congr minn.
  by case/and3P: ok => /perm_size; rewrite size_map.
- by move=> p /mem_take hp; rewrite -cntE; exact: (value_counts_entry ok hp).
- move=> p a hp na.
  case ha: (Some a \in [seq author m | m <- f]); last first.
    by rewrite -cntE (count_memPn _) // ha.
  move: ha; rewrite -mem => /mapP [q hq aq].
  have qd : q \in drop 10 vc.
    move: hq; rewrite -{1}(cat_take_drop 10 vc) mem_cat => /orP [qt|] //.
    by case/negP: na; rewrite aq map_f.
  have [q2 _] := value_counts_entry ok hq; rewrite aq -cntE -q2.
  case/and3P: ok => _ _; rewrite (sorted_pairwise (@by_count_trans _)).
  rewrite -{1}(cat_take_drop 10 vc) pairwise_cat => /and3P [/allrelP al _ _].
  exact: (al p q hp qd).
Qed.

Lemma day_name_in t : day_name t \in day_names.
Proof.
rewrite /day_name; apply: mem_nth.
have := Z.mod_pos_bound (date_of_ns t + 3) 7 erefl.
move: (_ mod 7)%Z => r [r0 r7]; apply/ltP.
by rewrite /day_names /=; lia.
Qed.

(** X19.  The weekday chart has at most seven bars, each named after a day
    of the week, and they add up to the number of rows with a timestamp. *)
Theorem daily_activity_has_seven_bars_at_most (f : seq message) vc :
  is_value_counts [seq omap day_name (timestamp m) | m <- f] vc ->
  [/\ size vc <= 7, forall p, p \in vc -> p.1 \in day_names
    & sumn [seq p.2 | p <- vc] = count (fun m => isSome (timestamp m)) f].
Proof.
move=> ok; have [unq mem] := value_counts_keys ok.
have tot := value_counts_total ok.
have sub : {subset [seq p.1 | p <- vc] <= day_names}.
  move=> x; rewrite mem => /mapP [m _].
  by case: (timestamp m) => //= t [->]; exact: day_name_in.
split.
- by rewrite -(size_map fst); exact: (uniq_leq_size unq sub).
- by move=> p hp; apply: sub; exact: map_f.
- by rewrite tot count_map; apply: eq_count => m /=; case: (timestamp m).
Qed.

Lemma later_first_total : total later_first.
Proof.
move=> [x|] [y|] //=; apply/orP.
by case: (Z.leb_spec y x) => ?; [left | right; apply/Z.leb_le; lia].
Qed.

Lemma later_first_trans : transitive later_first.
Proof.
move=> [y|] [x|] [z|] //= /Z.leb_le ? /Z.leb_le ?.
by apply/Z.leb_le; lia.
Qed.

Lemma later_first_antisym : antisymmetric later_first.
Proof.
move=> [x|] [y|] //= /andP [/Z.leb_le ? /Z.leb_le ?].
by congr Some; lia.
Qed.

Lemma display_df_exists (f : seq message) :
  is_display_df f (sort (relpre (@timestamp (option Z)) later_first) f).
Proof.
rewrite /is_display_df perm_sort perm_refl /=.
by apply: sort_sorted => a b; exact: later_first_total.
Qed.

(** X20.  The message table.  Whatever order the sort gives to rows with
    one timestamp, the table shown has the rows of the filtered table, as
    many as it, its timestamp column is the one sorted column there is, and
    its first row is a latest message. *)
Theorem display_df_is_latest_first (f d : seq message) :
  is_display_df f d ->
  [/\ size d = size f,
      forall m, (m \in d) = (m \in f),
      [seq timestamp m | m <- d]
      = sort later_first [seq timestamp m | m <- f]
    & forall m0 d', d = m0 :: d' ->
        forall m, m \in f -> later_first (timestamp m0) (timestamp m)].
Proof.
case/andP => pm srt; split.
- exact: perm_size.
- exact: perm_mem.
- apply: (sorted_eq later_first_trans later_first_antisym).
  + by rewrite sorted_map.
  + exact: (sort_sorted later_first_total).
  + by rewrite perm_sym perm_sort perm_sym; exact: perm_map.
- move=> m0 d' dE m; rewrite -(perm_mem pm) dE inE => /orP [/eqP -> | hm].
    by case: (timestamp m0) => //= x; apply/Z.leb_le; lia.
  move: srt; rewrite dE /= => /(order_path_min _) /allP; apply=> //.
  by move=> b a c; exact: later_first_trans.
Qed.

Lemma undup_const (T : eqType) (t : T) (s : seq T) :
  all (pred1 t) s -> s <> [::] -> undup s = [:: t].
Proof.
elim: s => [|x s IH] //= /andP [/eqP -> al] _.
case: s IH al => [|y s] IH al //.
have yt : y = t by case/andP: al => /eqP.
rewrite yt in IH al *.
by rewrite [undup _]/= inE eqxx /=; exact: IH.
Qed.

(** X21.  With one type selected, the chart of lengths by type has a single
    bar, for that type, and the third metric is its height rounded to one
    decimal. *)
Theorem one_type_selected_one_group df sp f st :
  pipeline df sp = Ok (f, st) ->
  selected_type sp <> "All" ->
  exists x, type_lengths f = [:: (selected_type sp, x)]
            /\ avg_message_length st = np_round1 x.
Proof.
rewrite /pipeline apply_filtersE.
case: (search_pattern sp) => //= o.
case E: (top_row _) => [st'|e|] //= [fE <-] nall.
have ty m : m \in f -> type m = Some (selected_type sp).
  rewrite -fE mem_filter /selects /type_ok => /andP [/and4P [_ + _ _] _].
  by case: eqP => // _ /= /eqP.
have ne : f <> [::].
  move=> f0; move: E; rewrite fE f0 /top_row /=.
  by [].
have keys : undup (pmap id [seq type m | m <- f]) = [:: selected_type sp].
  have all_t : all (pred1 (selected_type sp)) (pmap id [seq type m | m <- f]).
    apply/allP => t; rewrite mem_pmap map_id => /mapP [m hm].
    by rewrite (ty m hm) => -[->] /=.
  have nn : pmap id [seq type m | m <- f] <> [::].
    case: f ne ty {E fE all_t} => // m f _ ty.
    by rewrite /= (ty m) ?inE ?eqxx.
  exact: undup_const.
move: E; rewrite fE /top_row; case: (messages_per_day f) => //= mpd [<-] /=.
exists (mean (str_len [seq content m | m <- f])); split=> //.
rewrite /type_lengths keys /=; congr [:: (_, mean (str_len _))].
by congr map; apply/all_filterP/allP => m /ty ->.
Qed.

Lemma top_authors_witness :
  let author_counts := head 10 [:: ("A", 1); ("B", 1)] in
  [/\ size author_counts
      = minn 10 (size (undup (pmap id [seq author m | m <- two_rows]))),
      forall p, p \in author_counts ->
        p.2 = count (fun m => author m == Some p.1) two_rows /\ 0 < p.2
    & forall p a, p \in author_counts ->
        a \notin [seq q.1 | q <- author_counts] ->
        count (fun m => author m == Some a) two_rows <= p.2].
Proof.
apply (@top_authors_are_the_most_active two_rows [:: ("A", 1); ("B", 1)]).
vm_compute; reflexivity.
Defined.

Lemma daily_activity_witness :
  [/\ size [:: ("Monday", 1); ("Tuesday", 1)] <= 7,
      forall p, p \in [:: ("Monday", 1); ("Tuesday", 1)] -> p.1 \in day_names
    & sumn [seq p.2 | p <- [:: ("Monday", 1); ("Tuesday", 1)]]
      = count (fun m => isSome (timestamp m)) two_rows].
Proof.
apply (@daily_activity_has_seven_bars_at_most two_rows
         [:: ("Monday", 1); ("Tuesday", 1)]).
vm_compute; reflexivity.
Defined.

Lemma display_df_witness :
  [/\ size [:: row2; row1] = size two_rows,
      forall m, (m \in [:: row2; row1]) = (m \in two_rows),
      [seq timestamp m | m <- [:: row2; row1]]
      = sort later_first [seq timestamp m | m <- two_rows]
    & forall m0 d', [:: row2; row1] = m0 :: d' ->
        forall m, m \in two_rows -> later_first (timestamp m0) (timestamp m)].
Proof.
apply (@display_df_is_latest_first two_rows [:: row2; row1]).
vm_compute; reflexivity.
Defined.

Lemma one_type_selected_witness :
  exists x, type_lengths [:: row2] = [:: (selected_type reply_spec, x)]
            /\ avg_message_length (Stats 1 1 11.0 1.0) = np_round1 x.
Proof.
apply (@one_type_selected_one_group two_rows reply_spec [:: row2]
         (Stats 1 1 11.0 1.0)).
- vm_compute; reflexivity.
- discriminate.
Defined.
